(** * Dynamo-mcp-bedrock: the chat orchestrator and its query/scan heuristic

    A shallow embedding of [mcp-client-bedrock/build/index.js] (class
    [MCPClient], [main]) and of the tools of the companion DynamoDB
    server, with the properties of the repository's specification stated
    and proved over it.

    Definitions:
    - [Js]       JavaScript values as the client manipulates them: property
                 access, truthiness, [String(v)], [Array.prototype.join],
                 [JSON.stringify], and the two regular expressions of the
                 heuristic;
    - [Eff]      the effects of the client: calls to the model endpoint, to
                 the tool server, to the console and to readline, recorded in
                 a trace, with JavaScript exceptions;
    - [Client]   [MCPClient], [processQuery], [chatLoop], [main];
    - [Server]   the tools registered by the server: their names, their
                 parameters and their handlers over the storage client;
    - [Stub]     deterministic stubbed backends used by the examples;
    - summaries of the steps of [processQuery] and the predicates the
      statements are written with.

    Theorems: one tool-use block; the shape of a turn; the query/scan
    fallback; the tool result in the transcript and in the output; the
    requests of a turn; the session; further properties of the client
    (requests, turns, tool calls, connecting) and of the server's
    handlers. *)

From Stdlib Require Import ZArith String Ascii List Bool Lia DecimalString.
Import ListNotations.
Open Scope list_scope.
Open Scope string_scope.

(* ================================================================== *)
(** ** JavaScript values *)
(* ================================================================== *)

Module Js.

#[local] Set Warnings "-register-all".

(** Values that flow through the client.  They come from [JSON.parse] (model
    responses, tool results) or from object literals of the client itself,
    which may hold [undefined] fields.  An object is an association list
    in insertion order, the order [JSON.stringify] and [Object.keys] follow.
    A number [VNum m e] is the double whose shortest decimal is
    [m / 10^e], the decimal [Number::toString] prints; the rounding of a
    numeral to a double is done where the number is made, by [JSON.parse]. *)
Inductive jsval : Type :=
| VUndef
| VNull
| VBool (b : bool)
| VNum (m : Z) (e : nat)
| VStr (s : string)
| VArr (elems : list jsval)
| VObj (fields : list (string * jsval)).

Definition VInt (n : Z) : jsval := VNum n 0.

(** [!!v] *)
Definition truthy (v : jsval) : bool :=
  match v with
  | VUndef | VNull => false
  | VBool b => b
  | VNum m _ => negb (m =? 0)%Z
  | VStr s => negb (s =? EmptyString)
  | VArr _ | VObj _ => true
  end.

Definition nullish (v : jsval) : bool :=
  match v with
  | VUndef | VNull => true
  | _ => false
  end.

(** [typeof v === "string"] and [Array.isArray(v)] *)
Definition is_string (v : jsval) : bool :=
  match v with VStr _ => true | _ => false end.

Definition Array_isArray (v : jsval) : bool :=
  match v with VArr _ => true | _ => false end.

(** [v.length] of an array *)
Definition array_length (v : jsval) : nat :=
  match v with VArr elems => List.length elems | _ => 0 end.

(** [v === "lit"] for a string literal *)
Definition strict_eq_str (v : jsval) (lit : string) : bool :=
  match v with VStr s => s =? lit | _ => false end.

Fixpoint lookup (k : string) (fields : list (string * jsval)) : jsval :=
  match fields with
  | [] => VUndef
  | (k', v) :: rest => if k' =? k then v else lookup k rest
  end.

Definition nat_to_string (n : nat) : string :=
  NilZero.string_of_uint (Nat.to_uint n).

(** [v.k] on a value that is neither [null] nor [undefined], for the
    property names the client uses (none is an array index or a prototype
    member other than [length]). *)
Definition prop (v : jsval) (k : string) : jsval :=
  match v with
  | VObj fields => lookup k fields
  | VArr elems => if k =? "length" then VInt (Z.of_nat (List.length elems)) else VUndef
  | VStr s => if k =? "length" then VInt (Z.of_nat (String.length s)) else VUndef
  | _ => VUndef
  end.

(** [v[0]] on a value that is neither [null] nor [undefined] *)
Definition index0 (v : jsval) : jsval :=
  match v with
  | VArr (x :: _) => x
  | VStr (String c _) => VStr (String c EmptyString)
  | VObj fields => lookup "0" fields
  | _ => VUndef
  end.

(** [Object.keys(v)] on a value that is neither [null] nor [undefined] *)
Definition Object_keys (v : jsval) : list string :=
  match v with
  | VObj fields => map fst fields
  | VArr elems => map nat_to_string (seq 0 (List.length elems))
  | VStr s => map nat_to_string (seq 0 (String.length s))
  | _ => []
  end.

(** *** Numbers to text *)

Definition Z_to_string (n : Z) : string := NilZero.string_of_int (Z.to_int n).

Fixpoint zeros (n : nat) : string :=
  match n with
  | O => EmptyString
  | S n' => String "0" (zeros n')
  end.

(** drops the zeros at the end of a run of digits *)
Fixpoint strip_trailing_zeros (s : string) : string :=
  match s with
  | EmptyString => EmptyString
  | String c rest =>
      match strip_trailing_zeros rest with
      | EmptyString => if (c =? "0")%char then EmptyString else String c EmptyString
      | rest' => String c rest'
      end
  end.

(** [Number::toString] in radix 10.  With [digits] the [k] digits of the
    number without the zeros at their end, and [n] the position of the
    decimal point after the first digit, the value being
    [0.digits * 10^n]: the digits and [n - k] zeros when [k <= n <= 21];
    the digits with a point after the [n]-th when [0 < n <= 21];
    [0.] and [-n] zeros before the digits when [-6 < n <= 0]; and
    otherwise the exponent notation, [d.ddde+x] or [d.ddde-x] with
    [x = |n - 1|]. *)
Definition num_to_string (m : Z) (e : nat) : string :=
  if (m =? 0)%Z then "0"
  else
    let sign := if (m <? 0)%Z then "-" else EmptyString in
    let all := Z_to_string (Z.abs m) in
    let digits := strip_trailing_zeros all in
    let k := String.length digits in
    let n := (Z.of_nat (String.length all) - Z.of_nat e)%Z in
    sign ++
    (if ((Z.of_nat k <=? n) && (n <=? 21))%Z then
       digits ++ zeros (Z.to_nat n - k)
     else if ((0 <? n) && (n <=? 21))%Z then
       String.substring 0 (Z.to_nat n) digits ++ "."
       ++ String.substring (Z.to_nat n) (k - Z.to_nat n) digits
     else if ((-6 <? n) && (n <=? 0))%Z then
       "0." ++ zeros (Z.to_nat (- n)) ++ digits
     else
       let exponent :=
         (if (0 <? n - 1)%Z then "+" else "-") ++ Z_to_string (Z.abs (n - 1)) in
       if (k =? 1)%nat then digits ++ "e" ++ exponent
       else String.substring 0 1 digits ++ "."
            ++ String.substring 1 (k - 1) digits ++ "e" ++ exponent).

(** *** [String(v)], template literals and [Array.prototype.join] *)

Fixpoint to_string (v : jsval) : string :=
  match v with
  | VUndef => "undefined"
  | VNull => "null"
  | VBool true => "true"
  | VBool false => "false"
  | VNum m e => num_to_string m e
  | VStr s => s
  | VArr elems =>
      String.concat ","
        (map (fun x => if nullish x then EmptyString else to_string x) elems)
  | VObj _ => "[object Object]"
  end.

(** [arr.join(sep)]: [null] and [undefined] elements render as the empty
    string. *)
Definition Array_join (sep : string) (arr : list jsval) : string :=
  String.concat sep
    (map (fun x => if nullish x then EmptyString else to_string x) arr).

(** *** [JSON.stringify] *)

Definition hex_digit (n : nat) : ascii :=
  match n with
  | 0 => "0" | 1 => "1" | 2 => "2" | 3 => "3" | 4 => "4" | 5 => "5"
  | 6 => "6" | 7 => "7" | 8 => "8" | 9 => "9" | 10 => "a" | 11 => "b"
  | 12 => "c" | 13 => "d" | 14 => "e" | _ => "f"
  end%char.

Definition dquote : ascii := ascii_of_nat 34.
Definition backslash : ascii := ascii_of_nat 92.

(** the line feed of the JavaScript escape [\n] *)
Definition nl : string := String (ascii_of_nat 10) EmptyString.

Definition escape_char (c : ascii) : string :=
  let n := nat_of_ascii c in
  if (n =? 34)%nat then String backslash (String dquote EmptyString)
  else if (n =? 92)%nat then String backslash (String backslash EmptyString)
  else if (n =? 8)%nat then "\b"
  else if (n =? 9)%nat then "\t"
  else if (n =? 10)%nat then "\n"
  else if (n =? 12)%nat then "\f"
  else if (n =? 13)%nat then "\r"
  else if (n <? 32)%nat then
    "\u00" ++ String (hex_digit (n / 16)) (String (hex_digit (n mod 16)) EmptyString)
  else String c EmptyString.

Fixpoint escape (s : string) : string :=
  match s with
  | EmptyString => EmptyString
  | String c rest => escape_char c ++ escape rest
  end.

Definition quote (s : string) : string :=
  String dquote (escape s ++ String dquote EmptyString).

Definition text_or_undefined (o : option string) : string :=
  match o with
  | Some s => s
  | None => "undefined"
  end.

(** The brackets around the serialized members of an array or object:
    compact without a gap, one member per line with one. *)
Definition wrap (lopen lclose gap stepback indent : string)
    (members : list string) : string :=
  match members with
  | [] => lopen ++ lclose
  | _ =>
      if gap =? EmptyString then
        lopen ++ String.concat "," members ++ lclose
      else
        lopen ++ nl ++ indent
          ++ String.concat ("," ++ nl ++ indent) members
          ++ nl ++ stepback ++ lclose
  end.

(** The serialization of [v] at indentation [indent]; [None] is the
    [undefined] that [JSON.stringify] returns for [undefined].  An
    [undefined] array element renders as [null], an [undefined] field is
    left out. *)
Fixpoint serialize (gap indent : string) (v : jsval) {struct v} : option string :=
  match v with
  | VUndef => None
  | VNull => Some "null"
  | VBool true => Some "true"
  | VBool false => Some "false"
  | VNum m e => Some (num_to_string m e)
  | VStr s => Some (quote s)
  | VArr elems =>
      let inner := indent ++ gap in
      let members :=
        map (fun x => match serialize gap inner x with
                      | Some s => s
                      | None => "null"
                      end) elems in
      Some (wrap "[" "]" gap indent inner members)
  | VObj fields =>
      let inner := indent ++ gap in
      let colon := if gap =? EmptyString then ":" else ": " in
      let members :=
        flat_map (fun kv => match kv with
                            | (k, x) =>
                                match serialize gap inner x with
                                | Some s => [quote k ++ colon ++ s]
                                | None => []
                                end
                            end) fields in
      Some (wrap "{" "}" gap indent inner members)
  end.

(** [JSON.stringify(v)] *)
Definition JSON_stringify (v : jsval) : option string :=
  serialize EmptyString EmptyString v.

(** [JSON.stringify(v, null, 2)] *)
Definition JSON_stringify_2 (v : jsval) : option string :=
  serialize "  " EmptyString v.

(** *** The regular expressions of the fallback heuristic *)

(** [\w] *)
Definition is_word_char (c : ascii) : bool :=
  let n := nat_of_ascii c in
  (((48 <=? n) && (n <=? 57)) || ((65 <=? n) && (n <=? 90))
   || (n =? 95) || ((97 <=? n) && (n <=? 122)))%nat.

Definition word_at (c : option ascii) : bool :=
  match c with
  | Some c => is_word_char c
  | None => false
  end.

(** [\b] between two neighbouring positions; [None] is an end of the
    input. *)
Definition word_boundary (prev next : option ascii) : bool :=
  xorb (word_at prev) (word_at next).

Definition peek (s : string) : option ascii :=
  match s with
  | String c _ => Some c
  | EmptyString => None
  end.

Fixpoint strip_prefix (lit s : string) : option string :=
  match lit with
  | EmptyString => Some s
  | String a lit' =>
      match s with
      | String b s' => if (a =? b)%char then strip_prefix lit' s' else None
      | EmptyString => None
      end
  end.

Fixpoint last_char (prev : option ascii) (s : string) : option ascii :=
  match s with
  | EmptyString => prev
  | String c rest => last_char (Some c) rest
  end.

(** [\b<pk>\b] anchored at the head of [s], [prev] being the character
    before it; [pk] is a literal. *)
Definition match_bare (pk : string) (prev : option ascii) (s : string) : bool :=
  match strip_prefix pk s with
  | Some rest =>
      word_boundary prev (peek (pk ++ rest))
      && word_boundary (last_char prev pk) (peek rest)
  | None => false
  end.

(** [#<pk>\b] anchored at the head of [s] *)
Definition match_alias (pk : string) (s : string) : bool :=
  match strip_prefix (String "#" pk) s with
  | Some rest => word_boundary (last_char (Some "#"%char) pk) (peek rest)
  | None => false
  end.

Fixpoint search_key (pk : string) (prev : option ascii) (s : string) : bool :=
  match_bare pk prev s || match_alias pk s
  || match s with
     | EmptyString => false
     | String c rest => search_key pk (Some c) rest
     end.

(** [new RegExp(`\\b${pk}\\b|#${pk}\\b`).test(v)]; [test] applies
    [String] to its argument. *)
Definition test_partition_key (pk : string) (v : jsval) : bool :=
  search_key pk None (to_string v).

Definition is_comparison_char (c : ascii) : bool :=
  ((c =? "<") || (c =? ">") || (c =? "!") || (c =? "="))%char.

Fixpoint has_comparison_char (s : string) : bool :=
  match s with
  | EmptyString => false
  | String c rest => is_comparison_char c || has_comparison_char rest
  end.

(** [/[<>!=]/.test(v)] *)
Definition test_comparison (v : jsval) : bool :=
  has_comparison_char (to_string v).

End Js.

Import Js.


(* ================================================================== *)
(** ** Effects: requests, the trace, exceptions *)
(* ================================================================== *)

Module Eff.

(** A thrown value: an instance of [Error] with its message, or any other
    value. *)
Inductive Exn : Type :=
| JsError (message : string)
| Thrown (v : jsval).

(** The [TypeError] of a property read on [null] or [undefined]. *)
Definition TypeError_read (v : jsval) (k : string) : Exn :=
  JsError ("Cannot read properties of " ++ to_string v
           ++ " (reading '" ++ k ++ "')").

(** The parameters of an [InvokeModelCommand]; [inferenceProfileArn] is
    [None] when the property was never attached. *)
Record InvokeModelCommand : Type := {
  modelId : string;
  contentType : string;
  accept : string;
  body : string;
  inferenceProfileArn : option jsval
}.

Record StdioClientTransport : Type := {
  command : string;
  args : list string
}.

Inductive ConsoleArg : Type :=
| CVal (v : jsval)
| CExn (e : Exn).

(** What the client does to the outside, in order. *)
Inductive Event : Type :=
| EvSend (cmd : InvokeModelCommand)           (* bedrockClient.send *)
| EvCallTool (name : jsval) (arguments : jsval) (* mcp.callTool *)
| EvConnect (t : StdioClientTransport)        (* mcp.connect *)
| EvListTools                                 (* mcp.listTools *)
| EvClose                                     (* mcp.close *)
| EvConsoleLog (line : list ConsoleArg)       (* console.log *)
| EvConsoleError (line : list ConsoleArg)     (* console.error *)
| EvQuestion (prompt : string)                (* rl.question *)
| EvReadlineClose.                            (* rl.close *)

Definition Trace : Type := list Event.

(** The outside world.  Each remote call answers from the history of the
    session so far, with a value or a thrown exception.  [bedrock_send]
    answers with the bytes of [response.body]; [mcp_callTool] and
    [mcp_listTools] with the result object the SDK hands over.
    [JSON_parse] is the platform's [JSON.parse]. *)
Record Env : Type := {
  bedrock_send : Trace -> InvokeModelCommand -> Exn + string;
  mcp_callTool : Trace -> jsval -> jsval -> Exn + jsval;
  mcp_listTools : Trace -> Exn + jsval;
  mcp_close : Trace -> Exn + unit;
  JSON_parse : string -> Exn + jsval;
  process_platform : string;
  process_execPath : string
}.

(** Computations of the client: they extend the trace and return a value
    or throw. *)
Definition M (A : Type) : Type := Trace -> (Exn + A) * Trace.

Definition ret {A} (a : A) : M A := fun tr => (inr a, tr).

Definition throw {A} (e : Exn) : M A := fun tr => (inl e, tr).

Definition bind {A B} (m : M A) (k : A -> M B) : M B :=
  fun tr =>
    match m tr with
    | (inr a, tr') => k a tr'
    | (inl e, tr') => (inl e, tr')
    end.

(** [try { m } catch (e) { handler e }] *)
Definition try_catch {A} (m : M A) (handler : Exn -> M A) : M A :=
  fun tr =>
    match m tr with
    | (inr a, tr') => (inr a, tr')
    | (inl e, tr') => handler e tr'
    end.

Definition emit (ev : Event) : M unit := fun tr => (inr tt, (tr ++ [ev])%list).

(** a remote call: the answer is read off the history before the call *)
Definition call {A} (oracle : Trace -> Exn + A) (ev : Event) : M A :=
  fun tr => (oracle tr, (tr ++ [ev])%list).

Definition lift {A} (r : Exn + A) : M A := fun tr => (r, tr).

(** [(await this.bedrockClient.send(new InvokeModelCommand(params))).body] *)
Definition send (env : Env) (params : InvokeModelCommand) : M string :=
  call (fun tr => bedrock_send env tr params) (EvSend params).

(** [new TextDecoder().decode(bytes)]: a string is its UTF-8 bytes. *)
Definition TextDecoder_decode (bytes : string) : string := bytes.

(** The parsed body of the response to a request, or what the request or
    the parse throws. *)
Definition model_reply (env : Env) (tr : Trace) (params : InvokeModelCommand)
  : Exn + jsval :=
  match bedrock_send env tr params with
  | inl e => inl e
  | inr bytes => JSON_parse env (TextDecoder_decode bytes)
  end.

(** [await this.mcp.callTool({ name, arguments })] *)
Definition callTool (env : Env) (name arguments : jsval) : M jsval :=
  call (fun tr => mcp_callTool env tr name arguments)
       (EvCallTool name arguments).

(** [v.k], throwing on [null] and [undefined] *)
Definition get (v : jsval) (k : string) : M jsval :=
  if nullish v then throw (TypeError_read v k) else ret (prop v k).

End Eff.

Import Eff.

Declare Scope js_scope.
Delimit Scope js_scope with js.
Notation "x <- m ;; k" := (bind m (fun x => k))
  (at level 61, m at next level, right associativity) : js_scope.
Notation "' pat <- m ;; k" :=
  (bind m (fun x => match x with pat => k end))
  (at level 61, pat pattern, m at next level, right associativity) : js_scope.
Notation "m ;; k" := (bind m (fun _ => k))
  (at level 61, right associativity) : js_scope.
Open Scope js_scope.

(* ================================================================== *)
(** ** The client: [MCPClient] and [main] *)
(* ================================================================== *)

Module Client.

(** An entry of [this.tools]. *)
Record Tool : Type := {
  name : jsval;
  description : jsval;
  input_schema : jsval
}.

(** The fields of [MCPClient] that are data; [mcp] and [bedrockClient] are
    the handles through which the [Env] is reached. *)
Record MCPClient : Type := {
  transport : option StdioClientTransport;
  tools : list Tool;
  modelId : string;
  inferenceProfileId : jsval
}.

(** [constructor(inferenceProfileId)]: the parameter is not stored; the
    fields keep their initializers. *)
Definition new_MCPClient (inferenceProfileId : jsval) : MCPClient :=
  {| transport := None;
     tools := [];
     modelId := "anthropic.claude-3-sonnet-20240229-v1:0";
     inferenceProfileId := VNull |}.

(** *** [connectToServer] *)

(** [s.endsWith(suffix)] *)
Definition endsWith (s suffix : string) : bool :=
  let n := String.length s in
  let m := String.length suffix in
  if (m <=? n)%nat then String.substring (n - m) m s =? suffix else false.

Fixpoint mapM {A B} (f : A -> M B) (l : list A) : M (list B) :=
  match l with
  | [] => ret []
  | x :: rest => y <- f x ;; ys <- mapM f rest ;; ret (y :: ys)
  end.

Definition tool_of_listing (tool : jsval) : M Tool :=
  n <- get tool "name" ;;
  ret {| name := n;
         description := if truthy (prop tool "description")
                        then prop tool "description" else VStr EmptyString;
         input_schema := prop tool "inputSchema" |}.

(** [toolsResult.tools.map(...)] *)
Definition tools_of_result (toolsResult : jsval) : M (list Tool) :=
  listed <- get toolsResult "tools" ;;
  match listed with
  | VArr elems => mapM tool_of_listing elems
  | _ =>
      if nullish listed then throw (TypeError_read listed "map")
      else throw (JsError "toolsResult.tools.map is not a function")
  end.

(** The promise of [mcp.connect] is not awaited: a failure of the spawn is
    not seen by this function.  On a throw the assignment to
    [this.transport] is not read again by any caller. *)
Definition connectToServer (env : Env) (this : MCPClient)
    (serverScriptPath : string) : M MCPClient :=
  try_catch
    (let isJs := endsWith serverScriptPath ".js" in
     let isPy := endsWith serverScriptPath ".py" in
     if negb isJs && negb isPy then
       throw (JsError "Server script must be a .js or .py file")
     else
       let command :=
         if isPy then
           if process_platform env =? "win32" then "python" else "python3"
         else process_execPath env in
       let t := {| command := command; args := [serverScriptPath] |} in
       emit (EvConnect t) ;;
       toolsResult <- call (mcp_listTools env) EvListTools ;;
       ts <- tools_of_result toolsResult ;;
       emit (EvConsoleLog [CVal (VStr "Connected to server with tools:");
                           CVal (VArr (map name ts))]) ;;
       ret {| transport := Some t;
              tools := ts;
              modelId := modelId this;
              inferenceProfileId := inferenceProfileId this |})
    (fun e =>
       emit (EvConsoleLog [CVal (VStr "Failed to connect to MCP server: ");
                           CExn e]) ;;
       throw e).

(** *** The request payloads *)

Definition user_text_msg (query : string) : jsval :=
  VObj [("role", VStr "user");
        ("content", VArr [VObj [("type", VStr "text");
                                ("text", VStr query)]])].

Definition assistant_tool_use_msg (id toolName toolArgs : jsval) : jsval :=
  VObj [("role", VStr "assistant");
        ("content", VArr [VObj [("type", VStr "tool_use");
                                ("id", id);
                                ("name", toolName);
                                ("input", toolArgs)]])].

Definition tool_result_msg (id : jsval) (content : string) : jsval :=
  VObj [("role", VStr "user");
        ("content", VArr [VObj [("type", VStr "tool_result");
                                ("tool_use_id", id);
                                ("content", VStr content)]])].

Definition tool_for_bedrock (tool : Tool) : jsval :=
  VObj [("name", name tool);
        ("description", if truthy (description tool)
                        then description tool else VStr EmptyString);
        ("input_schema", input_schema tool)].

(** [this.tools.length > 0 ? { tools: ... } : {}] *)
Definition toolsForBedrock (this : MCPClient) : jsval :=
  if (0 <? List.length (tools this))%nat
  then VObj [("tools", VArr (map tool_for_bedrock (tools this)))]
  else VObj [].

Definition fields_of (v : jsval) : list (string * jsval) :=
  match v with
  | VObj fields => fields
  | _ => []
  end.

Definition generation_parameters : list (string * jsval) :=
  [("anthropic_version", VStr "bedrock-2023-05-31");
   ("max_tokens", VInt 1000);
   ("top_k", VInt 250);
   ("stop_sequences", VArr []);
   ("temperature", VNum 7 1);
   ("top_p", VNum 999 3)].

Definition payload (this : MCPClient) (messages : list jsval) : jsval :=
  VObj (generation_parameters
        ++ [("messages", VArr messages)]
        ++ fields_of (toolsForBedrock this))%list.

Definition followUpPayload (this : MCPClient) (messages : list jsval) : jsval :=
  VObj (generation_parameters
        ++ [("messages", VArr messages);
            ("tools", if (0 <? List.length (tools this))%nat
                      then prop (toolsForBedrock this) "tools"
                      else VUndef)])%list.

Definition commandParams (this : MCPClient) (messages : list jsval)
  : InvokeModelCommand :=
  {| Eff.modelId := modelId this;
     contentType := "application/json";
     accept := "application/json";
     body := text_or_undefined (JSON_stringify (payload this messages));
     inferenceProfileArn :=
       if truthy (inferenceProfileId this)
       then Some (inferenceProfileId this) else None |}.

Definition followUpCommandParams (this : MCPClient) (messages : list jsval)
  : InvokeModelCommand :=
  {| Eff.modelId := modelId this;
     contentType := "application/json";
     accept := "application/json";
     body := text_or_undefined (JSON_stringify (followUpPayload this messages));
     inferenceProfileArn := None |}.

(** *** The query/scan fallback heuristic *)

Definition partitionKey : string := "id".

(** The reads of [toolArgs] below are on an object already read once. *)
Definition missingPartitionKey (toolArgs : jsval) : bool :=
  if negb (truthy (prop toolArgs "keyConditionExpression")) then true
  else if negb (truthy (prop toolArgs "expressionAttributeValues")) then true
  else if (List.length (Object_keys (prop toolArgs "expressionAttributeValues"))
           =? 0)%nat then true
  else negb (test_partition_key partitionKey
               (prop toolArgs "keyConditionExpression")).

Definition isInvalidKeyCondition (toolArgs : jsval) : bool :=
  if missingPartitionKey toolArgs then true
  else test_comparison (prop toolArgs "keyConditionExpression").

Definition scanArgs (toolArgs : jsval) : jsval :=
  VObj [("tableName", prop toolArgs "tableName");
        ("filterExpression",
           if truthy (prop toolArgs "filterExpression")
           then prop toolArgs "filterExpression"
           else prop toolArgs "keyConditionExpression");
        ("expressionAttributeNames", prop toolArgs "expressionAttributeNames");
        ("expressionAttributeValues", prop toolArgs "expressionAttributeValues");
        ("limit", prop toolArgs "limit")].

(** [`[Calling tool ${toolName} with args ${JSON.stringify(toolArgs)}]`] *)
Definition calling_line (toolName toolArgs : jsval) : jsval :=
  VStr ("[Calling tool " ++ to_string toolName ++ " with args "
        ++ text_or_undefined (JSON_stringify toolArgs) ++ "]").

(** *** [processQuery] *)

(** The arrays local to one call of [processQuery]. *)
Record Locals : Type := {
  messages : list jsval;
  finalText : list jsval;
  toolResults : list jsval
}.

Definition push_finalText (st : Locals) (v : jsval) : Locals :=
  {| messages := messages st;
     finalText := (finalText st ++ [v])%list;
     toolResults := toolResults st |}.

Definition push_toolResults (st : Locals) (v : jsval) : Locals :=
  {| messages := messages st;
     finalText := finalText st;
     toolResults := (toolResults st ++ [v])%list |}.

Definition push_messages (st : Locals) (v : jsval) : Locals :=
  {| messages := (messages st ++ [v])%list;
     finalText := finalText st;
     toolResults := toolResults st |}.

(** [x?.text] *)
Definition optional_text (x : jsval) : jsval :=
  if nullish x then VUndef else prop x "text".

(** The value bound to [parsed] in both introspection blocks: the payload
    of a string result, or of the first block of an array result, parsed;
    [null] otherwise. *)
Definition parse_result (env : Env) (result : jsval) : M jsval :=
  rc <- get result "content" ;;
  if is_string rc then
    lift (JSON_parse env (to_string rc))
  else if Array_isArray rc && (0 <? array_length rc)%nat
          && is_string (optional_text (index0 rc))
  then lift (JSON_parse env (to_string (optional_text (index0 rc))))
  else ret VNull.

(** The block that prints the items to the terminal; whatever it throws is
    dropped. *)
Definition print_items (env : Env) (result : jsval) : M unit :=
  try_catch
    (parsed <- parse_result env result ;;
     if truthy parsed && truthy (prop parsed "items")
        && Array_isArray (prop parsed "items")
     then
       emit (EvConsoleLog [CVal (VStr (nl ++ "--- Actual items from tool ---"))]) ;;
       emit (EvConsoleLog
               [CVal (VStr (text_or_undefined
                              (JSON_stringify_2 (prop parsed "items"))))]) ;;
       emit (EvConsoleLog [CVal (VStr ("--- End items ---" ++ nl))])
     else ret tt)
    (fun _ => ret tt).

(** The value of [itemsText] after its block. *)
Definition itemsText_of (env : Env) (result : jsval) : M string :=
  try_catch
    (parsed <- parse_result env result ;;
     if truthy parsed && truthy (prop parsed "items")
     then ret (nl ++ "Actual items:" ++ nl
               ++ text_or_undefined (JSON_stringify_2 (prop parsed "items")))
     else ret EmptyString)
    (fun _ => ret EmptyString).

(** [typeof result.content === 'string' ? result.content
                                         : JSON.stringify(result.content)] *)
Definition toolResultContent_of (result : jsval) : M (option string) :=
  rc <- get result "content" ;;
  match rc with
  | VStr s => ret (Some s)
  | _ => ret (JSON_stringify rc)
  end.

(** The body of the [tool_use] branch. *)
Definition process_tool_use (env : Env) (this : MCPClient)
    (content : jsval) (st : Locals) : M Locals :=
  let toolName := prop content "name" in
  let toolArgs := prop content "input" in
  get toolArgs "keyConditionExpression" ;;
  let invalid := isInvalidKeyCondition toolArgs in
  '(result, st) <-
    (if strict_eq_str toolName "query_table" && invalid then
       result <- callTool env (VStr "scan_table") (scanArgs toolArgs) ;;
       let st := push_toolResults st result in
       let st := push_finalText st
                   (calling_line (VStr "scan_table") (scanArgs toolArgs)) in
       ret (result, st)
     else
       result <- callTool env toolName toolArgs ;;
       let st := push_toolResults st result in
       let st := push_finalText st (calling_line toolName toolArgs) in
       ret (result, st)) ;;
  print_items env result ;;
  let st := push_toolResults st result in
  let st := push_finalText st (calling_line toolName toolArgs) in
  let st := push_messages st
              (assistant_tool_use_msg (prop content "id") toolName toolArgs) in
  toolResultContent <- toolResultContent_of result ;;
  itemsText <- itemsText_of env result ;;
  let st := push_messages st
              (tool_result_msg (prop content "id")
                 (text_or_undefined toolResultContent ++ itemsText)) in
  followUpResponse <- send env (followUpCommandParams this (messages st)) ;;
  followUpBody <- lift (JSON_parse env (TextDecoder_decode followUpResponse)) ;;
  fc <- get followUpBody "content" ;;
  if truthy fc && truthy (index0 fc)
     && strict_eq_str (prop (index0 fc) "type") "text"
  then ret (push_finalText st (prop (index0 fc) "text"))
  else ret st.

(** One round of the [for ... of] loop.  [content.type] is the first read
    of [content]. *)
Definition process_content (env : Env) (this : MCPClient)
    (content : jsval) (st : Locals) : M Locals :=
  ty <- get content "type" ;;
  if strict_eq_str ty "text" then
    ret (push_finalText st (prop content "text"))
  else if strict_eq_str ty "tool_use" then
    process_tool_use env this content st
  else ret st.

Fixpoint for_of (env : Env) (this : MCPClient) (blocks : list jsval)
    (st : Locals) : M Locals :=
  match blocks with
  | [] => ret st
  | content :: rest =>
      st' <- process_content env this content st ;;
      for_of env this rest st'
  end.

(** The elements a [for ... of] visits: those of an array, the characters
    of a string; anything else a JSON value can be is not iterable. *)
Definition iterate (v : jsval) : M (list jsval) :=
  match v with
  | VArr elems => ret elems
  | VStr s =>
      ret (map (fun c => VStr (String c EmptyString)) (list_ascii_of_string s))
  | _ => throw (JsError "responseBody.content is not iterable")
  end.

(** [error instanceof Error ? error.message : String(error)] *)
Definition error_text (error : Exn) : string :=
  match error with
  | JsError message => message
  | Thrown v => to_string v
  end.

(** The [try] block of [processQuery]; [messages] is the array created at
    the top of the call. *)
Definition try_block (env : Env) (this : MCPClient) (messages : list jsval)
  : M string :=
  response <- send env (commandParams this messages) ;;
  responseBody <- lift (JSON_parse env (TextDecoder_decode response)) ;;
  rcontent <- get responseBody "content" ;;
  blocks <- iterate rcontent ;;
  st <- for_of env this blocks
          {| messages := messages; finalText := []; toolResults := [] |} ;;
  ret (Array_join nl (finalText st)).

Definition processQuery (env : Env) (this : MCPClient) (query : string)
  : M string :=
  let messages := [user_text_msg query] in
  try_catch
    (try_block env this messages)
    (fun error =>
       emit (EvConsoleError [CVal (VStr "Error invoking Bedrock model:");
                             CExn error]) ;;
       ret ("Error: " ++ error_text error)).

(** *** [chatLoop], [cleanup] and [main] *)

(** [c.toLowerCase()] on the letters A-Z; no other character lowers to a
    letter of the two keywords compared below. *)
Definition lower_char (c : ascii) : ascii :=
  let n := nat_of_ascii c in
  if ((65 <=? n) && (n <=? 90))%nat then ascii_of_nat (n + 32) else c.

Fixpoint toLowerCase (s : string) : string :=
  match s with
  | EmptyString => EmptyString
  | String c rest => String (lower_char c) (toLowerCase rest)
  end.

(** How the [while (true)] loop stops: on the quit keyword, or never,
    waiting for a line that standard input does not deliver. *)
Inductive LoopEnd : Type :=
| Quit
| EndOfInput.

Definition query_prompt : string := nl ++ "Query: ".

(** The [while (true)] loop over the lines read from standard input. *)
Fixpoint chat_rounds (env : Env) (this : MCPClient) (stdin : list string)
  : M LoopEnd :=
  match stdin with
  | [] => emit (EvQuestion query_prompt) ;; ret EndOfInput
  | message :: rest =>
      emit (EvQuestion query_prompt) ;;
      if toLowerCase message =? "quit" then ret Quit
      else if toLowerCase message =? "tools" then chat_rounds env this rest
      else
        response <- processQuery env this message ;;
        emit (EvConsoleLog [CVal (VStr (nl ++ response))]) ;;
        chat_rounds env this rest
  end.

(** The [finally] closes readline once the loop has stopped; a question
    left pending never reaches it. *)
Definition chatLoop (env : Env) (this : MCPClient) (stdin : list string)
  : M LoopEnd :=
  fun tr =>
    match
      (emit (EvConsoleLog
               [CVal (VStr (nl ++ "MCP Client with Bedrock Started with Bedrock!"))]) ;;
       emit (EvConsoleLog
               [CVal (VStr "Type your queries, 'tools' to list tools, or 'quit' to exit.")]) ;;
       chat_rounds env this stdin) tr
    with
    | (inr EndOfInput, tr') => (inr EndOfInput, tr')
    | (r, tr') => (r, (tr' ++ [EvReadlineClose])%list)
    end.

Definition cleanup (env : Env) : M unit :=
  call (mcp_close env) EvClose.

(** How a run of the program ends. *)
Inductive Outcome : Type :=
| Exited (code : Z)        (* process.exit(code) *)
| Returned                 (* main returned, nothing left to run *)
| Rejected (e : Exn)       (* the promise of main rejected *)
| Uncaught (e : Exn)       (* thrown while the module was loaded *)
| Pending.                 (* waiting for input that never comes *)

Definition usage : string :=
  "Usage: node index.ts <path_to_server_script> [inference_profile_id]".

(** [main]; [argv] is [process.argv]. *)
Definition main (env : Env) (argv : list string) (stdin : list string)
  : Trace -> Outcome * Trace :=
  fun tr =>
    if (List.length argv <? 3)%nat then
      (Returned, (tr ++ [EvConsoleLog [CVal (VStr usage)]])%list)
    else
      let inferenceProfileId := VStr "us.anthropic.claude-opus-4-1-20250805-v1:0" in
      let mcpClient :=
        new_MCPClient (if truthy inferenceProfileId
                       then inferenceProfileId else VUndef) in
      let banner :=
        if truthy inferenceProfileId
        then "Using inference profile ID: " ++ to_string inferenceProfileId
        else "No inference profile ID provided. Using model ID directly." in
      match
        (emit (EvConsoleLog [CVal (VStr banner)]) ;;
         this <- connectToServer env mcpClient (nth 2 argv EmptyString) ;;
         chatLoop env this stdin) tr
      with
      | (inr EndOfInput, tr') => (Pending, tr')
      | (_, tr') =>
          match cleanup env tr' with
          | (inr _, tr'') => (Exited 0, tr'')
          | (inl e, tr'') => (Rejected e, tr'')
          end
      end.

(** The module as a whole: the check of [AWS_REGION], then [main()]. *)
Definition program (env : Env) (AWS_REGION : jsval) (argv : list string)
    (stdin : list string) : Outcome * Trace :=
  if negb (truthy AWS_REGION) then
    (Uncaught (JsError "AWS_REGION is not set in .env file"), [])
  else main env argv stdin [].

End Client.

Import Client.

(* ================================================================== *)
(** ** The server's catalogue *)
(* ================================================================== *)

Module Server.

(** The names under which the server registers its tools, in the order of
    the [server.tool] calls. *)
Definition tool_names : list string :=
  ["list-tables"; "describe-table"; "put-item"; "get-item";
   "query-table"; "scan-table"; "create-table"].

(** The parameters each schema declares. *)
Definition tool_parameters (tool : string) : list string :=
  if tool =? "describe-table" then ["tableName"]
  else if tool =? "put-item" then ["tableName"; "item"]
  else if tool =? "get-item" then ["tableName"; "key"]
  else if tool =? "query-table"
       then ["tableName"; "keyConditionExpression"; "expressionAttributeValues"]
  else if tool =? "scan-table" then ["tableName"]
  else if tool =? "create-table"
       then ["tableName"; "partitionKey"; "partitionKeyType"; "sortKey";
             "sortKeyType"; "readCapacity"; "writeCapacity"]
  else [].

(** *** The handlers *)

(** The commands of the storage client, each with the input object it is
    built from. *)
Inductive Command : Type :=
| ListTablesCommand (input : jsval)
| DescribeTableCommand (input : jsval)
| PutItemCommand (input : jsval)
| GetItemCommand (input : jsval)
| QueryCommand (input : jsval)
| ScanCommand (input : jsval)
| CreateTableCommand (input : jsval).

(** What the server takes from its libraries: the storage service as it
    answers at the time of the call ([dynamoClient.send]), the two
    conversions of [@aws-sdk/util-dynamodb], and the two constants of the
    SDK's [KeyType]. *)
Record Dynamo : Type := {
  dynamo_send : Command -> Exn + jsval;
  marshall : jsval -> Exn + jsval;
  unmarshall : jsval -> Exn + jsval;
  KeyType_HASH : jsval;
  KeyType_RANGE : jsval
}.

(** A handler returns a result or throws, and leaves the commands it has
    sent, in order. *)
Definition Srv (A : Type) : Type := (Exn + A) * list Command.

Definition sret {A} (a : A) : Srv A := (inr a, []).

Definition sthrow {A} (e : Exn) : Srv A := (inl e, []).

Definition sbind {A B} (m : Srv A) (k : A -> Srv B) : Srv B :=
  match m with
  | (inr a, sent) =>
      match k a with
      | (r, sent') => (r, (sent ++ sent')%list)
      end
  | (inl e, sent) => (inl e, sent)
  end.

Definition slift {A} (r : Exn + A) : Srv A := (r, []).

(** [await dynamoClient.send(command)] *)
Definition ssend (d : Dynamo) (command : Command) : Srv jsval :=
  (dynamo_send d command, [command]).

(** [v.k], throwing on [null] and [undefined] *)
Definition sget (v : jsval) (k : string) : Srv jsval :=
  if nullish v then sthrow (TypeError_read v k) else sret (prop v k).

Fixpoint smapM {A B} (f : A -> Srv B) (l : list A) : Srv (list B) :=
  match l with
  | [] => sret []
  | x :: rest =>
      sbind (f x) (fun y => sbind (smapM f rest) (fun ys => sret (y :: ys)))
  end.

(** [{ content: [{ type: "text", text }] }]; the text is [undefined] when
    [JSON.stringify] gave [undefined]. *)
Definition text_content (text : option string) : jsval :=
  VObj [("content",
         VArr [VObj [("type", VStr "text");
                     ("text", match text with
                              | Some s => VStr s
                              | None => VUndef
                              end)]])].

(** [items ? items.map(item => unmarshall(item)) : []] *)
Definition unmarshall_items (d : Dynamo) (items : jsval) : Srv jsval :=
  if truthy items then
    match items with
    | VArr elems =>
        sbind (smapM (fun item => slift (unmarshall d item)) elems)
              (fun rows => sret (VArr rows))
    | _ => sthrow (JsError "resp.Items.map is not a function")
    end
  else sret (VArr []).

Definition list_tables (d : Dynamo) (args : jsval) : Srv jsval :=
  sbind (ssend d (ListTablesCommand (VObj []))) (fun resp =>
  sbind (sget resp "TableNames") (fun names =>
  sret (text_content (JSON_stringify names)))).

Definition describe_table (d : Dynamo) (args : jsval) : Srv jsval :=
  let tableName := prop args "tableName" in
  sbind (ssend d (DescribeTableCommand (VObj [("TableName", tableName)])))
        (fun resp =>
  sbind (sget resp "Table") (fun table =>
  sret (text_content (JSON_stringify table)))).

Definition put_item (d : Dynamo) (args : jsval) : Srv jsval :=
  let tableName := prop args "tableName" in
  let item := prop args "item" in
  sbind (slift (marshall d item)) (fun marshalled =>
  sbind (ssend d (PutItemCommand (VObj [("TableName", tableName);
                                        ("Item", marshalled)])))
        (fun _ =>
  sret (text_content (Some ("Item put in table " ++ to_string tableName))))).

Definition get_item (d : Dynamo) (args : jsval) : Srv jsval :=
  let tableName := prop args "tableName" in
  let key := prop args "key" in
  sbind (slift (marshall d key)) (fun marshalled =>
  sbind (ssend d (GetItemCommand (VObj [("TableName", tableName);
                                        ("Key", marshalled)])))
        (fun resp =>
  sbind (sget resp "Item") (fun item =>
  sbind (if truthy item then slift (unmarshall d item) else sret VNull)
        (fun shown =>
  sret (text_content (JSON_stringify shown)))))).

Definition query_table (d : Dynamo) (args : jsval) : Srv jsval :=
  let tableName := prop args "tableName" in
  let keyConditionExpression := prop args "keyConditionExpression" in
  let expressionAttributeValues := prop args "expressionAttributeValues" in
  sbind (slift (marshall d expressionAttributeValues)) (fun marshalled =>
  sbind (ssend d (QueryCommand
                    (VObj [("TableName", tableName);
                           ("KeyConditionExpression", keyConditionExpression);
                           ("ExpressionAttributeValues", marshalled)])))
        (fun resp =>
  sbind (sget resp "Items") (fun items =>
  sbind (unmarshall_items d items) (fun rows =>
  sret (text_content (JSON_stringify rows)))))).

Definition scan_table (d : Dynamo) (args : jsval) : Srv jsval :=
  let tableName := prop args "tableName" in
  sbind (ssend d (ScanCommand (VObj [("TableName", tableName)])))
        (fun resp =>
  sbind (sget resp "Items") (fun items =>
  sbind (unmarshall_items d items) (fun rows =>
  sret (text_content (JSON_stringify rows))))).

(** [attrDefs] of [create-table] *)
Definition attrDefs (args : jsval) : list jsval :=
  (VObj [("AttributeName", prop args "partitionKey");
         ("AttributeType", prop args "partitionKeyType")]
   :: (if truthy (prop args "sortKey")
       then [VObj [("AttributeName", prop args "sortKey");
                   ("AttributeType", prop args "sortKeyType")]]
       else []))%list.

(** [keySchema] of [create-table] *)
Definition keySchema (d : Dynamo) (args : jsval) : list jsval :=
  (VObj [("AttributeName", prop args "partitionKey");
         ("KeyType", KeyType_HASH d)]
   :: (if truthy (prop args "sortKey")
       then [VObj [("AttributeName", prop args "sortKey");
                   ("KeyType", KeyType_RANGE d)]]
       else []))%list.

Definition create_table (d : Dynamo) (args : jsval) : Srv jsval :=
  sbind (ssend d (CreateTableCommand
                    (VObj [("TableName", prop args "tableName");
                           ("AttributeDefinitions", VArr (attrDefs args));
                           ("KeySchema", VArr (keySchema d args));
                           ("ProvisionedThroughput",
                            VObj [("ReadCapacityUnits", prop args "readCapacity");
                                  ("WriteCapacityUnits",
                                   prop args "writeCapacity")])])))
        (fun resp =>
  sbind (sget resp "TableDescription") (fun description =>
  sret (text_content (JSON_stringify description)))).

(** The registrations, in the order of the [server.tool] calls. *)
Definition handlers (d : Dynamo) : list (string * (jsval -> Srv jsval)) :=
  [("list-tables", list_tables d);
   ("describe-table", describe_table d);
   ("put-item", put_item d);
   ("get-item", get_item d);
   ("query-table", query_table d);
   ("scan-table", scan_table d);
   ("create-table", create_table d)].

End Server.

(* ================================================================== *)
(** ** Stubbed backends *)
(* ================================================================== *)

Module Stub.

Fixpoint count_sends (tr : Trace) : nat :=
  match tr with
  | [] => 0
  | EvSend _ :: rest => S (count_sends rest)
  | _ :: rest => count_sends rest
  end.

Fixpoint parse_with (table : list (string * jsval)) (text : string)
  : Exn + jsval :=
  match table with
  | [] => inl (JsError "Unexpected token in JSON")
  | (t, v) :: rest => if t =? text then inr v else parse_with rest text
  end.

(** The bytes of a scripted reply, and the entries that let [JSON.parse]
    read the replies back. *)
Definition reply_bytes (r : Exn + jsval) : Exn + string :=
  match r with
  | inl e => inl e
  | inr v => inr (text_or_undefined (JSON_stringify v))
  end.

Fixpoint reply_table (replies : list (Exn + jsval)) : list (string * jsval) :=
  match replies with
  | [] => []
  | inl _ :: rest => reply_table rest
  | inr v :: rest => (text_or_undefined (JSON_stringify v), v) :: reply_table rest
  end.

(** A deterministic backend: the model answers its n-th request with the
    n-th entry of [replies], the server answers every call with
    [tool_answer], the catalogue is [listing], and [JSON.parse] knows the
    replies and the texts of [table]. *)
Definition scripted (replies : list (Exn + jsval)) (tool_answer : Exn + jsval)
    (listing : Exn + jsval) (table : list (string * jsval)) : Env :=
  {| bedrock_send := fun tr _ =>
       reply_bytes
         (nth (count_sends tr) replies (inl (JsError "no more replies")));
     mcp_callTool := fun _ _ _ => tool_answer;
     mcp_listTools := fun _ => listing;
     mcp_close := fun _ => inr tt;
     JSON_parse := parse_with (table ++ reply_table replies)%list;
     process_platform := "linux";
     process_execPath := "/usr/bin/node" |}.

Definition text_block (s : string) : jsval :=
  VObj [("type", VStr "text"); ("text", VStr s)].

Definition tool_use_block (id name : string) (input : jsval) : jsval :=
  VObj [("type", VStr "tool_use"); ("id", VStr id); ("name", VStr name);
        ("input", input)].

Definition reply (blocks : list jsval) : Exn + jsval :=
  inr (VObj [("role", VStr "assistant"); ("content", VArr blocks)]).

Definition text_result (text : string) : Exn + jsval :=
  inr (VObj [("content", VArr [VObj [("type", VStr "text");
                                     ("text", VStr text)]])]).

Definition catalogue : Exn + jsval :=
  inr (VObj [("tools",
              VArr (map (fun n => VObj [("name", VStr n);
                                        ("description", VStr "a tool");
                                        ("inputSchema", VObj [])])
                        Server.tool_names))]).

(** The key condition of the specification's scenario. *)
Definition range_query : jsval :=
  VObj [("tableName", VStr "Users");
        ("keyConditionExpression", VStr "id > :v");
        ("expressionAttributeValues", VObj [(":v", VInt 5)])].

(** A key condition on the partition key with equality only. *)
Definition equality_query : jsval :=
  VObj [("tableName", VStr "Users");
        ("keyConditionExpression", VStr "id = :v");
        ("expressionAttributeValues", VObj [(":v", VInt 5)])].

Definition items_payload : string :=
  "{" ++ quote "items" ++ ":[{" ++ quote "id" ++ ":5}]}".

Definition items_value : jsval :=
  VObj [("items", VArr [VObj [("id", VInt 5)]])].

(** One turn against a model that asks for [block] and then comments. *)
Definition one_tool_env (block : jsval) : Env :=
  scripted [reply [block]; reply [text_block "Here are the rows."]]
           (text_result items_payload) catalogue [(items_payload, items_value)].

Definition client : MCPClient := new_MCPClient VUndef.

(** A backend that answers from the request alone: the model gives the
    same reply to every request, the server the same result to every
    call. *)
Definition steady (answer : jsval) (tool_answer : Exn + jsval)
    (table : list (string * jsval)) : Env :=
  {| bedrock_send := fun _ _ => reply_bytes (inr answer);
     mcp_callTool := fun _ _ _ => tool_answer;
     mcp_listTools := fun _ => catalogue;
     mcp_close := fun _ => inr tt;
     JSON_parse := parse_with (table ++ reply_table [inr answer])%list;
     process_platform := "linux";
     process_execPath := "/usr/bin/node" |}.

(** The scenario of the specification: the model asks for [list-tables]
    with no arguments, the server answers with two table names. *)
Definition list_tables_env : Env :=
  scripted [reply [tool_use_block "t1" "list-tables" (VObj [])];
            reply [text_block "You have two tables."]]
           (text_result ("[" ++ quote "Users" ++ "," ++ quote "Orders" ++ "]"))
           catalogue
           [("[" ++ quote "Users" ++ "," ++ quote "Orders" ++ "]",
             VArr [VStr "Users"; VStr "Orders"])].

(** A model that answers with text only. *)
Definition plain_text_env : Env :=
  scripted [reply [text_block "Hello."; text_block "How can I help?"]]
           (text_result "unused") catalogue [].

(** A model that asks for a scan between two texts. *)
Definition scan_request : list jsval :=
  [text_block "Let me look.";
   tool_use_block "t1" "scan_table" (VObj [("tableName", VStr "Users")]);
   text_block "Done."].

(** A server that refuses every call. *)
Definition failing_tool_env : Env :=
  scripted [reply scan_request]
           (inl (JsError "MCP error -32602: Tool scan_table not found"))
           catalogue [].

Definition put_request : jsval :=
  tool_use_block "t1" "put-item"
    (VObj [("tableName", VStr "Users"); ("item", VObj [("id", VInt 7)])]).

(** A server that answers with a confirmation that is not JSON. *)
Definition confirmation_env : Env :=
  scripted [reply [put_request]; reply [text_block "Stored."]]
           (text_result "Item put in table Users") catalogue [].

(** The tools of [catalogue], as listed. *)
Definition listing : list jsval :=
  map (fun n => VObj [("name", VStr n);
                      ("description", VStr "a tool");
                      ("inputSchema", VObj [])])
      Server.tool_names.

(** A storage service with one table of two items; the conversions
    leave the values as they are. *)
Definition users_table : Server.Dynamo :=
  {| Server.dynamo_send := fun command =>
       match command with
       | Server.ListTablesCommand _ =>
           inr (VObj [("TableNames", VArr [VStr "Users"])])
       | Server.ScanCommand _ | Server.QueryCommand _ =>
           inr (VObj [("Items", VArr [VObj [("id", VInt 5)];
                                      VObj [("id", VInt 7)]])])
       | Server.GetItemCommand _ => inr (VObj [])
       | _ => inl (JsError "ResourceNotFoundException")
       end;
     Server.marshall := fun v => inr v;
     Server.unmarshall := fun v => inr v;
     Server.KeyType_HASH := VStr "HASH";
     Server.KeyType_RANGE := VStr "RANGE" |}.

(** A payload whose numeral, 2^53 + 1, is not a double. *)
Definition long_numeral_payload : string :=
  "{" ++ quote "items" ++ ":[{" ++ quote "id" ++ ":9007199254740993}]}".

(** What [JSON.parse] makes of it: the numeral is read as the nearest
    double, 2^53. *)
Definition long_numeral_value : jsval :=
  VObj [("items", VArr [VObj [("id", VInt 9007199254740992)]])].

Definition scan_users : jsval :=
  tool_use_block "t1" "scan_table" (VObj [("tableName", VStr "Users")]).

(** A server that answers with that payload. *)
Definition long_numeral_env : Env :=
  scripted [reply [scan_users]; reply [text_block "One row."]]
           (text_result long_numeral_payload) catalogue
           [(long_numeral_payload, long_numeral_value)].

End Stub.

(* ================================================================== *)
(** ** Summaries of the steps, and the predicates of the statements *)
(* ================================================================== *)

(** What [parse_result] binds to [parsed], or what it throws; the history
    plays no part in it. *)
Definition parsed_of (env : Env) (result : jsval) : Exn + jsval :=
  fst (parse_result env result []).

(** The text appended to the tool result. *)
Definition items_text (env : Env) (result : jsval) : string :=
  match parsed_of env result with
  | inr parsed =>
      if truthy parsed && truthy (prop parsed "items")
      then nl ++ "Actual items:" ++ nl
           ++ text_or_undefined (JSON_stringify_2 (prop parsed "items"))
      else EmptyString
  | inl _ => EmptyString
  end.

(** The lines printed to the terminal. *)
Definition printed (env : Env) (result : jsval) : Trace :=
  match parsed_of env result with
  | inr parsed =>
      if truthy parsed && truthy (prop parsed "items")
         && Array_isArray (prop parsed "items")
      then
        [EvConsoleLog [CVal (VStr (nl ++ "--- Actual items from tool ---"))];
         EvConsoleLog
           [CVal (VStr (text_or_undefined
                          (JSON_stringify_2 (prop parsed "items"))))];
         EvConsoleLog [CVal (VStr ("--- End items ---" ++ nl))]]
      else []
  | inl _ => []
  end.

(** The text of [toolResultContent]. *)
Definition content_text (result : jsval) : string :=
  text_or_undefined
    (match prop result "content" with
     | VStr s => Some s
     | rc => JSON_stringify rc
     end).

(** The call that is sent to the server for a requested tool. *)
Definition dispatch (toolName toolArgs : jsval) : jsval * jsval :=
  if strict_eq_str toolName "query_table" && isInvalidKeyCondition toolArgs
  then (VStr "scan_table", scanArgs toolArgs)
  else (toolName, toolArgs).

(** The text block taken from a follow-up response. *)
Definition follow_text (followUpBody : jsval) : list jsval :=
  let fc := prop followUpBody "content" in
  if truthy fc && truthy (index0 fc)
     && strict_eq_str (prop (index0 fc) "type") "text"
  then [prop (index0 fc) "text"]
  else [].

(** The two messages a block adds to the transcript. *)
Definition exchange (env : Env) (content result : jsval) : list jsval :=
  [assistant_tool_use_msg (prop content "id") (prop content "name")
     (prop content "input");
   tool_result_msg (prop content "id")
     (content_text result ++ items_text env result)].

(** The locals after a block that ran to its end. *)
Definition after_block (env : Env) (content result followUpBody : jsval)
    (st : Locals)
  : Locals :=
  let toolName := prop content "name" in
  let toolArgs := prop content "input" in
  {| messages := (messages st ++ exchange env content result)%list;
     finalText :=
       (finalText st
        ++ [calling_line (fst (dispatch toolName toolArgs))
                         (snd (dispatch toolName toolArgs));
            calling_line toolName toolArgs]
        ++ follow_text followUpBody)%list;
     toolResults := (toolResults st ++ [result; result])%list |}.

(** A block step by step: the first read of the arguments, the dispatch,
    the terminal output, the follow-up request. *)
Definition block_run (env : Env) (this : MCPClient) (content : jsval)
    (st : Locals) (tr : Trace)
  : (Exn + Locals) * Trace :=
  let toolName := prop content "name" in
  let toolArgs := prop content "input" in
  let dn := fst (dispatch toolName toolArgs) in
  let da := snd (dispatch toolName toolArgs) in
  if nullish toolArgs then
    (inl (TypeError_read toolArgs "keyConditionExpression"), tr)
  else
    match mcp_callTool env tr dn da with
    | inl e => (inl e, (tr ++ [EvCallTool dn da])%list)
    | inr result =>
        let tr1 := ((tr ++ [EvCallTool dn da]) ++ printed env result)%list in
        if nullish result then (inl (TypeError_read result "content"), tr1)
        else
          let cmd :=
            followUpCommandParams this
              (messages st ++ exchange env content result)%list in
          match model_reply env tr1 cmd with
          | inl e => (inl e, (tr1 ++ [EvSend cmd])%list)
          | inr followUpBody =>
              if nullish followUpBody then
                (inl (TypeError_read followUpBody "content"),
                 (tr1 ++ [EvSend cmd])%list)
              else
                (inr (after_block env content result followUpBody st),
                 (tr1 ++ [EvSend cmd])%list)
          end
    end.

(** Terminal output. *)
Definition is_console (ev : Event) : Prop :=
  match ev with
  | EvConsoleLog _ | EvConsoleError _ => True
  | _ => False
  end.

(** The events of a turn after its first request, read against the
    message list [msgs] built so far.  A dispatched call either ends the
    turn ([shape_aborted]: it threw, or its result could not be read), or
    is followed, after the terminal output, by one follow-up request whose
    message list is [msgs] extended by one [tool_use] message and the
    [tool_result] message of the same id. *)
Inductive turn_shape (this : MCPClient) : list jsval -> Trace -> Prop :=
| shape_done (msgs : list jsval) :
    turn_shape this msgs []
| shape_console (msgs : list jsval) (ev : Event) (rest : Trace) :
    is_console ev ->
    turn_shape this msgs rest ->
    turn_shape this msgs (ev :: rest)
| shape_aborted (msgs : list jsval) (n a : jsval) (rest : Trace) :
    Forall is_console rest ->
    turn_shape this msgs (EvCallTool n a :: rest)
| shape_exchange (msgs : list jsval) (n a id toolName toolArgs : jsval)
    (text : string) (shown rest : Trace) :
    Forall is_console shown ->
    turn_shape this
      (msgs ++ [assistant_tool_use_msg id toolName toolArgs;
                tool_result_msg id text])%list rest ->
    turn_shape this msgs
      (EvCallTool n a
       :: shown
          ++ EvSend (followUpCommandParams this
                       (msgs ++ [assistant_tool_use_msg id toolName toolArgs;
                                 tool_result_msg id text])%list)
          :: rest)%list.

(** What a step of the loop leaves behind: its events [evs], and how they
    compose with what follows, be it the rest of the loop or the handler
    of [processQuery]. *)
Definition step_shape (this : MCPClient) (st : Locals) (tr : Trace)
    (run : (Exn + Locals) * Trace) : Prop :=
  exists evs,
    snd run = (tr ++ evs)%list
    /\ match fst run with
       | inr st' =>
           forall evs2, turn_shape this (messages st') evs2 ->
                        turn_shape this (messages st) (evs ++ evs2)%list
       | inl _ =>
           forall tail, Forall is_console tail ->
                        turn_shape this (messages st) (evs ++ tail)%list
       end.

(** A content block of a model response that asks for a tool: an object
    whose [type] is [tool_use] and whose [input] is present. *)
Definition is_tool_use (content : jsval) : Prop :=
  nullish content = false
  /\ prop content "type" = VStr "tool_use"
  /\ nullish (prop content "input") = false.

(** Any event but a call to the server. *)
Definition not_a_call (ev : Event) : Prop :=
  match ev with
  | EvCallTool _ _ => False
  | _ => True
  end.

(** The three ways in which a key condition is unfit for a query: it
    lacks the partition key as a whole word, its value map is absent or
    empty, it holds a comparison character. *)
Definition unfit_key_condition (toolArgs : jsval) : Prop :=
  let kce := prop toolArgs "keyConditionExpression" in
  let eav := prop toolArgs "expressionAttributeValues" in
  test_partition_key "id" kce = false
  \/ (truthy eav = false \/ Object_keys eav = [])
  \/ test_comparison kce = true.

(** The text payload of a tool result as the client reads it: the content
    itself when it is a string, the [text] of the first block when it is
    a list of blocks. *)
Definition payload_text (result : jsval) : option string :=
  match prop result "content" with
  | VStr s => Some s
  | VArr (first :: _) =>
      match optional_text first with
      | VStr s => Some s
      | _ => None
      end
  | _ => None
  end.

(** A run of [tool_use] messages, each followed at once by the
    [tool_result] message of the same id. *)
Inductive exchanges : list jsval -> Prop :=
| exchanges_nil : exchanges []
| exchanges_cons (id toolName toolArgs : jsval) (text : string)
    (rest : list jsval) :
    exchanges rest ->
    exchanges (assistant_tool_use_msg id toolName toolArgs
               :: tool_result_msg id text :: rest).

(** A follow-up request of the turn opened by the message [first]: its
    message list is [first] and at least one exchange after it. *)
Definition follow_up_of (this : MCPClient) (first : jsval) (ev : Event)
  : Prop :=
  match ev with
  | EvSend cmd =>
      exists ex, exchanges ex /\ ex <> []
                 /\ cmd = followUpCommandParams this (first :: ex)
  | _ => True
  end.

(** Whether [needle] occurs in [hay]. *)
Fixpoint occurs (needle hay : string) : bool :=
  if String.prefix needle hay then true
  else match hay with
       | EmptyString => false
       | String _ rest => occurs needle rest
       end.

(** The requests sent to the model endpoint, in order. *)
Fixpoint sends (tr : Trace) : list InvokeModelCommand :=
  match tr with
  | [] => []
  | EvSend cmd :: rest => cmd :: sends rest
  | _ :: rest => sends rest
  end.

(** An event of the interactive loop: a request built by the client
    [this], a call to the server, terminal or readline traffic.  The
    channel to the server is neither opened nor closed there. *)
Definition loop_event (this : MCPClient) (ev : Event) : Prop :=
  match ev with
  | EvSend cmd =>
      exists msgs, cmd = commandParams this msgs
                   \/ cmd = followUpCommandParams this msgs
  | EvCallTool _ _ | EvConsoleLog _ | EvConsoleError _
  | EvQuestion _ | EvReadlineClose => True
  | EvConnect _ | EvListTools | EvClose => False
  end.

(** An event of [connectToServer]. *)
Definition startup_event (ev : Event) : Prop :=
  match ev with
  | EvConnect _ | EvListTools | EvConsoleLog _ => True
  | _ => False
  end.

(** The key condition [s], after the character [prev], holds [id] as a
    whole word: [id] with no word character right before or right after
    it. *)
Definition whole_word_id (prev : option ascii) (s : string) : Prop :=
  exists pre post,
    s = pre ++ "id" ++ post
    /\ word_at (last_char prev pre) = false
    /\ word_at (peek post) = false.

(** A backend whose answers do not depend on the history of the
    session. *)
Definition history_free (env : Env) : Prop :=
  (forall tr tr' cmd, bedrock_send env tr cmd = bedrock_send env tr' cmd)
  /\ (forall tr tr' n a, mcp_callTool env tr n a = mcp_callTool env tr' n a).

(** A computation that does the same, and returns the same, after every
    history. *)
Definition replays {A : Type} (m : M A) : Prop :=
  exists r evs, forall tr, m tr = (r, (tr ++ evs)%list).

(** How often the channel to the server is closed. *)
Fixpoint closes (tr : Trace) : nat :=
  match tr with
  | [] => 0
  | EvClose :: rest => S (closes rest)
  | _ :: rest => closes rest
  end.

(** Whether a line of standard input is the quit keyword. *)
Definition has_quit (stdin : list string) : bool :=
  existsb (fun message => toLowerCase message =? "quit") stdin.

(** The model id every client is built with. *)
Definition fixed_model_id : string := "anthropic.claude-3-sonnet-20240229-v1:0".

(** A request names the fixed model and carries no inference profile. *)
Definition uses_fixed_model (ev : Event) : Prop :=
  match ev with
  | EvSend cmd =>
      Eff.modelId cmd = fixed_model_id /\ inferenceProfileArn cmd = None
  | _ => True
  end.

(** The first line [main] prints once the server path is there. *)
Definition profile_banner : Event :=
  EvConsoleLog
    [CVal (VStr ("Using inference profile ID: "
                 ++ "us.anthropic.claude-opus-4-1-20250805-v1:0"))].

(** The calls made to the server, in order: name and arguments. *)
Fixpoint called (tr : Trace) : list (jsval * jsval) :=
  match tr with
  | [] => []
  | EvCallTool n a :: rest => (n, a) :: called rest
  | _ :: rest => called rest
  end.

(** A content block of type [text]. *)
Definition is_text_block (content : jsval) : Prop :=
  nullish content = false /\ prop content "type" = VStr "text".

(** Whether a content block takes the [tool_use] branch of the loop. *)
Definition asks_tool (content : jsval) : bool :=
  strict_eq_str (prop content "type") "tool_use".

(** How many calls to the server a trace holds. *)
Fixpoint calls (tr : Trace) : nat :=
  match tr with
  | [] => 0
  | EvCallTool _ _ :: rest => S (calls rest)
  | _ :: rest => calls rest
  end.

(** How many [tool_use] blocks a reply of the model holds. *)
Definition tool_uses_of (reply : Exn + jsval) : nat :=
  match reply with
  | inr responseBody =>
      match prop responseBody "content" with
      | VArr blocks => List.length (filter asks_tool blocks)
      | _ => 0
      end
  | inl _ => 0
  end.

(** The entry of [this.tools] made from one listed tool. *)
Definition listed_tool (tool : jsval) : Tool :=
  {| name := prop tool "name";
     description := if truthy (prop tool "description")
                    then prop tool "description" else VStr EmptyString;
     input_schema := prop tool "inputSchema" |}.

(** The transport [connectToServer] builds for a path. *)
Definition transport_for (env : Env) (path : string) : StdioClientTransport :=
  {| command :=
       if endsWith path ".py" then
         if process_platform env =? "win32" then "python" else "python3"
       else process_execPath env;
     args := [path] |}.

(** The three lines the terminal shows for a rendering of the items. *)
Definition items_shown (rendering : string) : Trace :=
  [EvConsoleLog [CVal (VStr (nl ++ "--- Actual items from tool ---"))];
   EvConsoleLog [CVal (VStr rendering)];
   EvConsoleLog [CVal (VStr ("--- End items ---" ++ nl))]].

(** A result of the server: one block of type [text]. *)
Definition single_text_result (result : jsval) : Prop :=
  exists text,
    result = VObj [("content",
                    VArr [VObj [("type", VStr "text"); ("text", text)]])].

(** The attribute names of a list of definitions or key-schema entries. *)
Definition attribute_names (entries : list jsval) : list jsval :=
  map (fun entry => prop entry "AttributeName") entries.

(** What a handler of the server leaves behind: at most one command; the
    error of the storage service when the command fails; a single text
    block, after exactly one command, when it returns. *)
Definition answers_with_one_text_block (d : Server.Dynamo)
    (run : Server.Srv jsval) : Prop :=
  (List.length (snd run) <= 1)%nat
  /\ (forall command e,
        In command (snd run) -> Server.dynamo_send d command = inl e ->
        fst run = inl e)
  /\ (forall result,
        fst run = inr result ->
        List.length (snd run) = 1%nat
        /\ exists text,
             result = Server.text_content text /\ payload_text result = text).

(* ================================================================== *)
(** ** The JavaScript model on examples *)
(* ================================================================== *)

Module JsExamples.

Example stringify_compact :
  JSON_stringify (VObj [("a", VInt 1); ("b", VArr [VStr "x"; VUndef]);
                        ("c", VUndef); ("d", VNum 7 1)])
  = Some ("{" ++ quote "a" ++ ":1," ++ quote "b" ++ ":[" ++ quote "x"
          ++ ",null]," ++ quote "d" ++ ":0.7}").
Proof. vm_compute. reflexivity. Qed.

Example stringify_pretty :
  JSON_stringify_2 (VArr [VObj [("id", VInt 1)]; VArr []])
  = Some ("[" ++ nl ++ "  {" ++ nl ++ "    " ++ quote "id" ++ ": 1" ++ nl
          ++ "  }," ++ nl ++ "  []" ++ nl ++ "]").
Proof. vm_compute. reflexivity. Qed.

Example numbers :
  [num_to_string 999 3; num_to_string 1000 0; num_to_string (-25) 1;
   num_to_string 5 3; num_to_string 1500 2; num_to_string 0 2]
  = ["0.999"; "1000"; "-2.5"; "0.005"; "15"; "0"].
Proof. vm_compute. reflexivity. Qed.

(** Where [Number::toString] changes notation: at [1e21] and below
    [1e-6]. *)
Example numbers_in_exponent_notation :
  [num_to_string (10 ^ 21) 0; num_to_string 123456789012345680000 0;
   num_to_string 1 6; num_to_string 1 7; num_to_string 15 8;
   num_to_string (-12345) 30; num_to_string (25 * 10 ^ 24) 0;
   num_to_string 9007199254740992 0; num_to_string 12345678 4]
  = ["1e+21"; "123456789012345680000"; "0.000001"; "1e-7"; "1.5e-7";
     "-1.2345e-26"; "2.5e+25"; "9007199254740992"; "1234.5678"].
Proof. vm_compute. reflexivity. Qed.

Example key_tests :
  map (fun s => test_partition_key "id" (VStr s))
      ["id = :v"; "#id = :v"; "userid = :v"; "id_x = :v"; "pk = :id";
       "x=id"; "ID = :v"; "valid"; "id"]
  = [true; true; false; false; true; true; false; false; true].
Proof. vm_compute. reflexivity. Qed.

(** The queries of the examples have the parameters the server declares
    for its query tool. *)
Example stub_queries_fit_the_schema :
  Object_keys Stub.range_query = Server.tool_parameters "query-table"
  /\ Object_keys Stub.equality_query = Server.tool_parameters "query-table".
Proof. split; reflexivity. Qed.

Example comparison_tests :
  map (fun s => test_comparison (VStr s))
      ["id = :v"; "id > :v"; "begins_with(id, :v)"; "a <> b"; "a != b"]
  = [true; true; false; true; true].
Proof. vm_compute. reflexivity. Qed.

End JsExamples.


(* ================================================================== *)
(** ** What one tool-use block does *)
(* ================================================================== *)

Section Block.

Variable env : Env.
Variable this : MCPClient.

Lemma get_ok (v : jsval) (k : string) (tr : Trace) :
  nullish v = false -> get v k tr = (inr (prop v k), tr).
Proof. intros H. unfold get. rewrite H. reflexivity. Qed.

Lemma get_throws (v : jsval) (k : string) (tr : Trace) :
  nullish v = true -> get v k tr = (inl (TypeError_read v k), tr).
Proof. intros H. unfold get. rewrite H. reflexivity. Qed.

Lemma parse_result_silent (result : jsval) (tr : Trace) :
  parse_result env result tr = (parsed_of env result, tr).
Proof.
  unfold parsed_of, parse_result, bind, get, lift, ret, throw.
  destruct (nullish result); simpl; [reflexivity|].
  destruct (is_string (prop result "content")); simpl; [reflexivity|].
  destruct (Array_isArray (prop result "content")
            && (0 <? array_length (prop result "content"))%nat
            && is_string (optional_text (index0 (prop result "content"))));
    reflexivity.
Qed.

Lemma itemsText_of_eq (result : jsval) (tr : Trace) :
  itemsText_of env result tr = (inr (items_text env result), tr).
Proof.
  unfold itemsText_of, items_text, try_catch, bind.
  rewrite parse_result_silent.
  destruct (parsed_of env result) as [e|parsed]; [reflexivity|].
  destruct (truthy parsed && truthy (prop parsed "items")); reflexivity.
Qed.

Lemma print_items_eq (result : jsval) (tr : Trace) :
  print_items env result tr = (inr tt, (tr ++ printed env result)%list).
Proof.
  unfold print_items, printed, try_catch, bind.
  rewrite parse_result_silent.
  destruct (parsed_of env result) as [e|parsed].
  - unfold ret. now rewrite app_nil_r.
  - destruct (truthy parsed && truthy (prop parsed "items")
              && Array_isArray (prop parsed "items")).
    + unfold emit. simpl. now rewrite <- !app_assoc.
    + unfold ret. now rewrite app_nil_r.
Qed.

Lemma toolResultContent_of_eq (result : jsval) (tr : Trace) :
  nullish result = false ->
  exists o, toolResultContent_of result tr = (inr o, tr)
            /\ text_or_undefined o = content_text result.
Proof.
  intros H. unfold toolResultContent_of, bind, content_text.
  rewrite (get_ok _ _ _ H).
  destruct (prop result "content"); eexists; split; reflexivity.
Qed.

Lemma process_tool_use_eq (content : jsval) (st : Locals) (tr : Trace) :
  process_tool_use env this content st tr = block_run env this content st tr.
Proof.
  unfold process_tool_use, block_run, dispatch.
  unfold bind at 1.
  destruct (nullish (prop content "input")) eqn:Hargs.
  { rewrite (get_throws _ _ _ Hargs). reflexivity. }
  rewrite (get_ok _ _ _ Hargs).
  set (toolName := prop content "name").
  set (toolArgs := prop content "input").
  unfold bind at 1.
  destruct (strict_eq_str toolName "query_table" && isInvalidKeyCondition toolArgs)
    eqn:Hd;
    cbn [fst snd];
    unfold bind at 1, callTool, call;
    match goal with
    | |- context [mcp_callTool env tr ?n ?a] =>
        destruct (mcp_callTool env tr n a) as [e|result]; [reflexivity|]
    end;
    unfold ret at 1; cbv beta iota;
    unfold bind at 1; rewrite print_items_eq;
    (destruct (nullish result) eqn:Hres;
     [ unfold bind at 1, toolResultContent_of, bind at 1;
       rewrite (get_throws _ _ _ Hres); reflexivity | ]);
    unfold bind at 1;
    match goal with
    | H : nullish ?r = false |- context [toolResultContent_of ?r ?t] =>
        destruct (toolResultContent_of_eq r t H) as (o & Ho & Htext)
    end;
    rewrite Ho; unfold bind at 1; rewrite itemsText_of_eq;
    cbn [messages push_messages push_finalText push_toolResults];
    rewrite Htext; unfold exchange; fold toolName toolArgs;
    rewrite <- (app_assoc (messages st)); cbn [app];
    unfold bind at 1, send, call, model_reply;
    match goal with
    | |- context [bedrock_send env ?t ?c] =>
        destruct (bedrock_send env t c) as [e|bytes]; [reflexivity|]
    end;
    unfold bind at 1, lift;
    (destruct (JSON_parse env (TextDecoder_decode bytes)) as [e|followUpBody];
     [reflexivity|]);
    unfold bind;
    (destruct (nullish followUpBody) eqn:Hbody;
     [ rewrite (get_throws _ _ _ Hbody); reflexivity | ]);
    rewrite (get_ok _ _ _ Hbody);
    unfold after_block, follow_text, dispatch, exchange;
    fold toolName toolArgs; rewrite Hd;
    destruct (truthy (prop followUpBody "content")
              && truthy (index0 (prop followUpBody "content"))
              && strict_eq_str
                   (prop (index0 (prop followUpBody "content")) "type") "text");
    unfold ret, push_finalText, push_messages, push_toolResults;
    cbn [messages finalText toolResults fst snd];
    rewrite <- ?app_assoc; cbn [app]; try rewrite app_nil_r; reflexivity.
Qed.

End Block.

(* ================================================================== *)
(** ** The shape of a turn *)
(* ================================================================== *)

Section Shape.

Variable env : Env.
Variable this : MCPClient.

Lemma shape_of_console (msgs : list jsval) (evs : Trace) :
  Forall is_console evs -> turn_shape this msgs evs.
Proof.
  induction 1 as [|ev rest Hev _ IH].
  - apply shape_done.
  - now apply shape_console.
Qed.

Lemma printed_is_console (result : jsval) :
  Forall is_console (printed env result).
Proof.
  unfold printed.
  destruct (parsed_of env result) as [e|parsed]; [constructor|].
  destruct (truthy parsed && truthy (prop parsed "items")
            && Array_isArray (prop parsed "items")).
  - repeat constructor.
  - constructor.
Qed.

Lemma block_run_shape (content : jsval) (st : Locals) (tr : Trace) :
  step_shape this st tr (block_run env this content st tr).
Proof.
  unfold step_shape, block_run.
  set (dn := fst (dispatch _ _)). set (da := snd (dispatch _ _)).
  destruct (nullish (prop content "input")).
  { exists []. cbn [fst snd]. split; [now rewrite app_nil_r|].
    intros tail Ht. now apply shape_of_console. }
  destruct (mcp_callTool env tr dn da) as [e|result].
  { exists [EvCallTool dn da]. cbn [fst snd]. split; [reflexivity|].
    intros tail Ht. now apply shape_aborted. }
  destruct (nullish result).
  { exists (EvCallTool dn da :: printed env result). cbn [fst snd].
    split; [now rewrite <- app_assoc|].
    intros tail Ht. cbn [app]. apply shape_aborted.
    apply Forall_app. split; [apply printed_is_console|exact Ht]. }
  set (msgs' := (messages st ++ exchange env content result)%list).
  assert (Hshape : forall rest,
             turn_shape this msgs' rest ->
             turn_shape this (messages st)
               ((EvCallTool dn da
                 :: printed env result
                    ++ [EvSend (followUpCommandParams this msgs')])
                ++ rest)%list).
  { intros rest Hrest. cbn [app]. rewrite <- app_assoc. cbn [app].
    apply shape_exchange; [apply printed_is_console|exact Hrest]. }
  destruct (model_reply env _ _) as [e|followUpBody];
    [|destruct (nullish followUpBody)];
    (exists (EvCallTool dn da
             :: printed env result
                ++ [EvSend (followUpCommandParams this msgs')])%list;
     cbn [fst snd];
     split; [now rewrite <- !app_assoc|]).
  - intros tail Ht. apply Hshape. now apply shape_of_console.
  - intros tail Ht. apply Hshape. now apply shape_of_console.
  - intros evs2 H2. apply Hshape. exact H2.
Qed.

Lemma process_content_shape (content : jsval) (st : Locals) (tr : Trace) :
  step_shape this st tr (process_content env this content st tr).
Proof.
  unfold process_content, bind.
  destruct (nullish content) eqn:Hc.
  { rewrite (get_throws _ _ _ Hc). exists []. cbn [fst snd].
    split; [now rewrite app_nil_r|].
    intros tail Ht. now apply shape_of_console. }
  rewrite (get_ok _ _ _ Hc).
  destruct (strict_eq_str (prop content "type") "text").
  { exists []. cbn [fst snd]. split; [now rewrite app_nil_r|].
    intros evs2 H2. exact H2. }
  destruct (strict_eq_str (prop content "type") "tool_use").
  - rewrite process_tool_use_eq. apply block_run_shape.
  - exists []. cbn [fst snd]. split; [now rewrite app_nil_r|].
    intros evs2 H2. exact H2.
Qed.

Lemma for_of_shape (blocks : list jsval) :
  forall (st : Locals) (tr : Trace),
    step_shape this st tr (for_of env this blocks st tr).
Proof.
  induction blocks as [|content rest IH]; intros st tr.
  - exists []. cbn [for_of ret fst snd]. split; [now rewrite app_nil_r|].
    intros evs2 H2. exact H2.
  - cbn [for_of]. unfold bind.
    destruct (process_content_shape content st tr) as (evs1 & Htr1 & H1).
    destruct (process_content env this content st tr) as [[e|st'] tr1];
      cbn [fst snd] in *; subst tr1.
    + exists evs1. cbn [fst snd]. split; [reflexivity|exact H1].
    + destruct (IH st' (tr ++ evs1)%list) as (evs2 & Htr2 & H2).
      exists (evs1 ++ evs2)%list. split.
      * rewrite Htr2. now rewrite app_assoc.
      * destruct (fst (for_of env this rest st' (tr ++ evs1)%list)) as [e|st''].
        -- intros tail Ht. rewrite <- app_assoc. apply H1. now apply H2.
        -- intros evs3 H3. rewrite <- app_assoc. apply H1. now apply H2.
Qed.

(** A turn is its first request followed by events of the shape above,
    starting from the message list the call was given; the returned value
    is a string in every case. *)
Lemma processQuery_shape (query : string) (tr : Trace) :
  exists (response : string) (evs : Trace),
    processQuery env this query tr
    = (inr response,
       (tr ++ EvSend (commandParams this [user_text_msg query]) :: evs)%list)
    /\ turn_shape this [user_text_msg query] evs.
Proof.
  unfold processQuery, try_catch, try_block.
  unfold bind at 1. unfold send at 1, call.
  set (cmd := commandParams this [user_text_msg query]).
  set (tr1 := (tr ++ [EvSend cmd])%list).
  assert (Htr : forall evs, (tr1 ++ evs = tr ++ EvSend cmd :: evs)%list).
  { intros evs. unfold tr1. now rewrite <- app_assoc. }
  assert (Hfail : forall e,
             exists response evs,
               (emit (EvConsoleError
                        [CVal (VStr "Error invoking Bedrock model:"); CExn e]) ;;
                ret ("Error: " ++ error_text e)) tr1
               = (inr response, (tr ++ EvSend cmd :: evs)%list)
               /\ turn_shape this [user_text_msg query] evs).
  { intros e. eexists. eexists. split.
    - unfold bind, emit, ret. rewrite Htr. reflexivity.
    - apply shape_of_console. repeat constructor. }
  destruct (bedrock_send env tr cmd) as [e|bytes]; [apply Hfail|].
  unfold bind at 1, lift.
  destruct (JSON_parse env (TextDecoder_decode bytes)) as [e|responseBody];
    [apply Hfail|].
  unfold bind at 1.
  destruct (nullish responseBody) eqn:Hb.
  { rewrite (get_throws _ _ _ Hb). apply Hfail. }
  rewrite (get_ok _ _ _ Hb).
  unfold bind at 1.
  assert (Hloop : forall blocks,
             exists response evs,
               match
                 (st <- for_of env this blocks
                          {| messages := [user_text_msg query];
                             finalText := []; toolResults := [] |} ;;
                  ret (Array_join nl (finalText st))) tr1
               with
               | (inr a, tr') => (inr a, tr')
               | (inl e, tr') =>
                   (emit (EvConsoleError
                            [CVal (VStr "Error invoking Bedrock model:");
                             CExn e]) ;;
                    ret ("Error: " ++ error_text e)) tr'
               end
               = (inr response, (tr ++ EvSend cmd :: evs)%list)
               /\ turn_shape this [user_text_msg query] evs).
  { intros blocks. unfold bind at 1.
    destruct (for_of_shape blocks
                {| messages := [user_text_msg query];
                   finalText := []; toolResults := [] |} tr1)
      as (evs & Hevs & Hs).
    destruct (for_of env this blocks _ tr1) as [[e|st'] tr'];
      cbn [fst snd messages] in *; subst tr'.
    - eexists. eexists. split.
      + unfold bind, emit, ret. rewrite <- app_assoc, Htr. reflexivity.
      + apply Hs. repeat constructor.
    - eexists. exists evs. split.
      + unfold ret. rewrite Htr. reflexivity.
      + rewrite <- (app_nil_r evs). apply Hs. apply shape_done. }
  destruct (prop responseBody "content"); cbn [iterate];
    try apply Hfail; apply Hloop.
Qed.

End Shape.

(* ================================================================== *)
(** ** The query/scan fallback *)
(* ================================================================== *)

Section Fallback.

Variable env : Env.
Variable this : MCPClient.

Lemma process_content_tool_use (content : jsval) (st : Locals) (tr : Trace) :
  is_tool_use content ->
  process_content env this content st tr = block_run env this content st tr.
Proof.
  intros (Hc & Hty & _). unfold process_content, bind.
  rewrite (get_ok _ _ _ Hc), Hty. cbn [strict_eq_str].
  replace ("tool_use" =? "text") with false by reflexivity.
  replace ("tool_use" =? "tool_use") with true by reflexivity.
  apply process_tool_use_eq.
Qed.

Lemma console_not_a_call (evs : Trace) :
  Forall is_console evs -> Forall not_a_call evs.
Proof.
  apply Forall_impl. intros [] H; simpl in *; tauto.
Qed.

(** A block whose arguments can be read makes exactly one call to the
    server, the one [dispatch] gives, before anything else. *)
Lemma block_run_calls_once (content : jsval) (st : Locals) (tr : Trace) :
  nullish (prop content "input") = false ->
  exists rest,
    snd (block_run env this content st tr)
    = (tr ++ EvCallTool
               (fst (dispatch (prop content "name") (prop content "input")))
               (snd (dispatch (prop content "name") (prop content "input")))
             :: rest)%list
    /\ Forall not_a_call rest.
Proof.
  intros Hargs. unfold block_run. rewrite Hargs.
  set (dn := fst (dispatch _ _)). set (da := snd (dispatch _ _)).
  assert (Hp : forall result, Forall not_a_call (printed env result))
    by (intros r; apply console_not_a_call, printed_is_console).
  destruct (mcp_callTool env tr dn da) as [e|result].
  { exists []. split; [reflexivity|constructor]. }
  destruct (nullish result).
  { exists (printed env result). cbn [snd].
    split; [now rewrite <- app_assoc|apply Hp]. }
  destruct (model_reply env _ _) as [e|followUpBody];
    [|destruct (nullish followUpBody)];
    (eexists (printed env result ++ [EvSend _])%list; cbn [snd];
     split; [rewrite <- !app_assoc; reflexivity|];
     apply Forall_app; split; [apply Hp|repeat constructor]).
Qed.



(** C3.  When the fallback rewrites a [query_table] call, the arguments
    of the [scan_table] call hold as [filterExpression] the original
    filter expression if it was given (is truthy) and the original key
    condition otherwise, the original [tableName],
    [expressionAttributeNames], [expressionAttributeValues] and [limit],
    and no other field: no [keyConditionExpression]. *)
Theorem scan_arguments_carry_over
    (content : jsval) (st : Locals) (tr : Trace) :
  is_tool_use content ->
  prop content "name" = VStr "query_table" ->
  isInvalidKeyCondition (prop content "input") = true ->
  let toolArgs := prop content "input" in
  exists args rest,
    snd (process_content env this content st tr)
    = (tr ++ EvCallTool (VStr "scan_table") args :: rest)%list
    /\ Forall not_a_call rest
    /\ prop args "filterExpression"
       = (if truthy (prop toolArgs "filterExpression")
          then prop toolArgs "filterExpression"
          else prop toolArgs "keyConditionExpression")
    /\ prop args "tableName" = prop toolArgs "tableName"
    /\ prop args "expressionAttributeNames"
       = prop toolArgs "expressionAttributeNames"
    /\ prop args "expressionAttributeValues"
       = prop toolArgs "expressionAttributeValues"
    /\ prop args "limit" = prop toolArgs "limit"
    /\ Object_keys args
       = ["tableName"; "filterExpression"; "expressionAttributeNames";
          "expressionAttributeValues"; "limit"]
    /\ prop args "keyConditionExpression" = VUndef.
Proof.
  intros Htu Hname Hinv toolArgs.
  rewrite (process_content_tool_use _ _ _ Htu).
  destruct Htu as (_ & _ & Hargs).
  destruct (block_run_calls_once content st tr Hargs) as (rest & Htr & Hrest).
  exists (scanArgs toolArgs), rest.
  split; [|split; [exact Hrest|repeat split]].
  rewrite Htr. unfold dispatch, toolArgs.
  rewrite Hname, Hinv. reflexivity.
Qed.

End Fallback.


(** Each way of being unfit, on its own: no [id] in the condition, an
    empty value map, an absent value map, a range operator. *)
Example unfit_cases :
  let query kce fields :=
    VObj (("tableName", VStr "Users")
          :: ("keyConditionExpression", VStr kce) :: fields) in
  let values := [("expressionAttributeValues", VObj [(":v", VInt 5)])] in
  map (fun toolArgs => fst (dispatch (VStr "query_table") toolArgs))
      [query "userid = :v" values;
       query "id = :v" [("expressionAttributeValues", VObj [])];
       query "id = :v" [];
       query "#id > :v" values;
       query "begins_with(id, :v)" values]
  = [VStr "scan_table"; VStr "scan_table"; VStr "scan_table";
     VStr "scan_table"; VStr "query_table"].
Proof. vm_compute. reflexivity. Qed.

Lemma scan_arguments_carry_over_witness :
  exists args rest,
    snd (process_content
           (Stub.one_tool_env (Stub.tool_use_block "t1" "query_table" Stub.range_query))
           Stub.client
           (Stub.tool_use_block "t1" "query_table" Stub.range_query)
           {| messages := [user_text_msg "rows above 5?"];
              finalText := []; toolResults := [] |} [])
    = ([] ++ EvCallTool (VStr "scan_table") args :: rest)%list
    /\ Forall not_a_call rest
    /\ prop args "filterExpression" = VStr "id > :v"
    /\ prop args "tableName" = VStr "Users"
    /\ prop args "expressionAttributeNames" = VUndef
    /\ prop args "expressionAttributeValues" = VObj [(":v", VInt 5)]
    /\ prop args "limit" = VUndef
    /\ Object_keys args
       = ["tableName"; "filterExpression"; "expressionAttributeNames";
          "expressionAttributeValues"; "limit"]
    /\ prop args "keyConditionExpression" = VUndef.
Proof.
  apply (scan_arguments_carry_over
           (Stub.one_tool_env (Stub.tool_use_block "t1" "query_table" Stub.range_query))
           Stub.client
           (Stub.tool_use_block "t1" "query_table" Stub.range_query)).
  - repeat split.
  - reflexivity.
  - reflexivity.
Defined.

(** C1, evaluated.  The model asks for the query tool under the name
    the server registers, [query-table], with the key condition
    [id > :v] of the specification's scenario, which is unfit for a
    query.  The test of the heuristic is on the name [query_table]: it
    fails, and the one call of the turn is [query-table] with the
    arguments as they were asked. *)
Example query_of_the_server_is_not_rewritten :
  let block := Stub.tool_use_block "t1" "query-table" Stub.range_query in
  let run := processQuery (Stub.one_tool_env block) Stub.client
               "rows above 5?" [] in
  In "query-table" Server.tool_names
  /\ unfit_key_condition Stub.range_query
  /\ isInvalidKeyCondition Stub.range_query = true
  /\ called (snd run) = [(VStr "query-table", Stub.range_query)].
Proof.
  split; [cbn; tauto|]. split; [right; right; reflexivity|].
  split; vm_compute; reflexivity.
Qed.

(** C2, evaluated.  The block asks for [query_table] with the key
    condition [id = :v] and a value map: the partition key is there, the
    only operator is equality.  The character class [[<>!=]] matches the
    equals sign, so the call is rewritten to [scan_table]. *)
Example equality_query_is_rewritten :
  let block := Stub.tool_use_block "t1" "query_table" Stub.equality_query in
  missingPartitionKey Stub.equality_query = false
  /\ test_comparison (prop Stub.equality_query "keyConditionExpression") = true
  /\ isInvalidKeyCondition Stub.equality_query = true
  /\ firstn 1 (snd (process_content (Stub.one_tool_env block) Stub.client block
                      {| messages := [user_text_msg "row 5?"];
                         finalText := []; toolResults := [] |} []))
     = [EvCallTool (VStr "scan_table")
          (VObj [("tableName", VStr "Users");
                 ("filterExpression", VStr "id = :v");
                 ("expressionAttributeNames", VUndef);
                 ("expressionAttributeValues", VObj [(":v", VInt 5)]);
                 ("limit", VUndef)])].
Proof. vm_compute. repeat split. Qed.

Section ServerNames.

Variable env : Env.
Variable this : MCPClient.


End ServerNames.


(* ================================================================== *)
(** ** The tool result in the transcript and in the output *)
(* ================================================================== *)

Section ToolResult.

Variable env : Env.
Variable this : MCPClient.

Lemma parsed_of_payload (result : jsval) (text : string) :
  nullish result = false ->
  payload_text result = Some text ->
  parsed_of env result = JSON_parse env text.
Proof.
  intros Hres Hp. unfold parsed_of, parse_result, bind.
  rewrite (get_ok _ _ _ Hres). unfold payload_text in Hp.
  destruct (prop result "content") as [| | | | s | elems | ]; try discriminate.
  - injection Hp as ->. reflexivity.
  - destruct elems as [|first rest]; [discriminate|].
    cbn [is_string Array_isArray array_length List.length index0 andb Nat.ltb
         Nat.leb].
    destruct (optional_text first); try discriminate.
    injection Hp as ->. reflexivity.
Qed.

(** C7, as the code has it.  When the text payload of a tool result
    parses as JSON with an [items] array, the follow-up request is sent
    with, as the last message of its list, the [tool_result] message of
    the block's id whose content is the result's own content, the
    heading [Actual items:] and then the whole two-space rendering that
    [JSON.stringify] gives of the array as [JSON.parse] returned it. *)
Theorem items_are_inlined_in_the_tool_result
    (content : jsval) (st : Locals) (tr : Trace)
    (result : jsval) (text : string) (parsed : jsval) (items : list jsval) :
  is_tool_use content ->
  mcp_callTool env tr
    (fst (dispatch (prop content "name") (prop content "input")))
    (snd (dispatch (prop content "name") (prop content "input")))
  = inr result ->
  nullish result = false ->
  payload_text result = Some text ->
  JSON_parse env text = inr parsed ->
  prop parsed "items" = VArr items ->
  exists rendering shown,
    JSON_stringify_2 (VArr items) = Some rendering
    /\ Forall is_console shown
    /\ snd (process_content env this content st tr)
       = (tr ++ EvCallTool
                  (fst (dispatch (prop content "name") (prop content "input")))
                  (snd (dispatch (prop content "name") (prop content "input")))
                :: shown
                   ++ [EvSend
                         (followUpCommandParams this
                            (messages st
                             ++ [assistant_tool_use_msg (prop content "id")
                                   (prop content "name") (prop content "input");
                                 VObj [("role", VStr "user");
                                       ("content",
                                        VArr [VObj
                                                [("type", VStr "tool_result");
                                                 ("tool_use_id",
                                                  prop content "id");
                                                 ("content",
                                                  VStr (content_text result
                                                        ++ nl ++ "Actual items:"
                                                        ++ nl ++ rendering))]])]]))])%list.
Proof.
  intros Htu Hcall Hres Hpayload Hparse Hitems.
  rewrite (process_content_tool_use _ _ _ _ _ Htu).
  destruct Htu as (_ & _ & Hargs).
  assert (Htext : items_text env result
                  = nl ++ "Actual items:" ++ nl
                    ++ text_or_undefined (JSON_stringify_2 (VArr items))).
  { unfold items_text.
    rewrite (parsed_of_payload _ _ Hres Hpayload), Hparse, Hitems.
    destruct parsed; try discriminate. reflexivity. }
  exists (text_or_undefined (JSON_stringify_2 (VArr items))),
         (printed env result).
  split; [reflexivity|]. split; [apply printed_is_console|].
  unfold block_run. rewrite Hargs, Hcall, Hres.
  unfold exchange, tool_result_msg. rewrite Htext.
  destruct (model_reply env _ _) as [e|followUpBody];
    [|destruct (nullish followUpBody)];
    cbn [snd]; rewrite <- !app_assoc; reflexivity.
Qed.




Lemma append_empty (s : string) : s ++ EmptyString = s.
Proof. induction s as [|c s IH]; [reflexivity|]. cbn. now rewrite IH. Qed.





End ToolResult.

(** The scenario's block against a server that answers with one item:
    the content of the [tool_result] message, in full. *)
Lemma items_are_inlined_in_the_tool_result_witness :
  let block := Stub.tool_use_block "t1" "query_table" Stub.range_query in
  let st := {| messages := [user_text_msg "rows above 5?"];
               finalText := []; toolResults := [] |} in
  let result := VObj [("content", VArr [Stub.text_block Stub.items_payload])] in
  let shown_rendering :=
    "[" ++ nl ++ "  {" ++ nl ++ "    " ++ quote "id" ++ ": 5" ++ nl
    ++ "  }" ++ nl ++ "]" in
  (exists rendering shown,
     JSON_stringify_2 (VArr [VObj [("id", VInt 5)]]) = Some rendering
     /\ Forall is_console shown
     /\ snd (process_content (Stub.one_tool_env block) Stub.client block st [])
        = ([] ++ EvCallTool (VStr "scan_table") (scanArgs Stub.range_query)
                 :: shown
                    ++ [EvSend
                          (followUpCommandParams Stub.client
                             (messages st
                              ++ [assistant_tool_use_msg (VStr "t1")
                                    (VStr "query_table") Stub.range_query;
                                  VObj [("role", VStr "user");
                                        ("content",
                                         VArr [VObj
                                                 [("type", VStr "tool_result");
                                                  ("tool_use_id", VStr "t1");
                                                  ("content",
                                                   VStr (content_text result
                                                         ++ nl ++ "Actual items:"
                                                         ++ nl ++ rendering))]])]]))])%list)
  /\ sends (snd (process_content (Stub.one_tool_env block) Stub.client block st []))
     = [followUpCommandParams Stub.client
          [user_text_msg "rows above 5?";
           assistant_tool_use_msg (VStr "t1") (VStr "query_table")
             Stub.range_query;
           VObj [("role", VStr "user");
                 ("content",
                  VArr [VObj
                          [("type", VStr "tool_result");
                           ("tool_use_id", VStr "t1");
                           ("content",
                            VStr ("[{" ++ quote "type" ++ ":" ++ quote "text"
                                  ++ "," ++ quote "text" ++ ":"
                                  ++ quote Stub.items_payload ++ "}]"
                                  ++ nl ++ "Actual items:" ++ nl
                                  ++ shown_rendering))]])]]]
  /\ occurs (escape shown_rendering)
       (body (followUpCommandParams Stub.client
                (messages st ++ exchange (Stub.one_tool_env block) block result)))
     = true.
Proof.
  split; [|split; vm_compute; reflexivity].
  apply (items_are_inlined_in_the_tool_result
           (Stub.one_tool_env
              (Stub.tool_use_block "t1" "query_table" Stub.range_query))
           Stub.client
           (Stub.tool_use_block "t1" "query_table" Stub.range_query)
           {| messages := [user_text_msg "rows above 5?"];
              finalText := []; toolResults := [] |}
           []
           (VObj [("content", VArr [Stub.text_block Stub.items_payload])])
           Stub.items_payload Stub.items_value [VObj [("id", VInt 5)]]).
  - repeat split.
  - reflexivity.
  - reflexivity.
  - reflexivity.
  - reflexivity.
  - reflexivity.
Defined.

(** C7, refuted.  The payload holds an item whose [id] is the numeral
    9007199254740993, which is not a double; [JSON.parse] reads it as
    9007199254740992.  The rendering of the array in the [tool_result]
    message holds the rounded number: the value of the payload is not in
    it. *)
Lemma long_numeral_is_not_preserved :
  let env := Stub.long_numeral_env in
  let st := {| messages := [user_text_msg "show the users"];
               finalText := []; toolResults := [] |} in
  let result :=
    VObj [("content", VArr [Stub.text_block Stub.long_numeral_payload])] in
  let rendering :=
    "[" ++ nl ++ "  {" ++ nl ++ "    " ++ quote "id" ++ ": 9007199254740992"
    ++ nl ++ "  }" ++ nl ++ "]" in
  payload_text result
  = Some ("{" ++ quote "items" ++ ":[{" ++ quote "id"
          ++ ":9007199254740993}]}")
  /\ sends (snd (process_content env Stub.client Stub.scan_users st []))
     = [followUpCommandParams Stub.client
          [user_text_msg "show the users";
           assistant_tool_use_msg (VStr "t1") (VStr "scan_table")
             (VObj [("tableName", VStr "Users")]);
           VObj [("role", VStr "user");
                 ("content",
                  VArr [VObj
                          [("type", VStr "tool_result");
                           ("tool_use_id", VStr "t1");
                           ("content",
                            VStr (content_text result
                                  ++ nl ++ "Actual items:" ++ nl
                                  ++ rendering))]])]]]
  /\ occurs "9007199254740993" rendering = false
  /\ occurs (quote "id" ++ ":9007199254740993")
       (content_text result ++ nl ++ "Actual items:" ++ nl ++ rendering)
     = false
  /\ occurs (quote "id" ++ ": 9007199254740993")
       (content_text result ++ nl ++ "Actual items:" ++ nl ++ rendering)
     = false.
Proof. vm_compute. repeat split. Qed.


(* ================================================================== *)
(** ** The requests of a turn *)
(* ================================================================== *)

Lemma calls_app (a b : Trace) : calls (a ++ b)%list = calls a + calls b.
Proof.
  induction a as [|ev a IH]; [reflexivity|].
  destruct ev; cbn [app calls]; rewrite IH; reflexivity.
Qed.

Lemma sends_app (a b : Trace) : sends (a ++ b)%list = (sends a ++ sends b)%list.
Proof.
  induction a as [|ev a IH]; [reflexivity|].
  destruct ev; cbn [app sends]; rewrite IH; reflexivity.
Qed.

Lemma console_is_local (evs : Trace) :
  Forall is_console evs -> calls evs = 0 /\ sends evs = [].
Proof.
  induction 1 as [|ev evs Hev _ [IHc IHs]]; [split; reflexivity|].
  destruct ev; simpl in *; tauto.
Qed.

Lemma exchanges_snoc (ex : list jsval) (id toolName toolArgs : jsval)
    (text : string) :
  exchanges ex ->
  exchanges (ex ++ [assistant_tool_use_msg id toolName toolArgs;
                    tool_result_msg id text])%list.
Proof.
  induction 1 as [|id' n' a' t' rest _ IH]; cbn [app].
  - apply exchanges_cons, exchanges_nil.
  - apply exchanges_cons, IH.
Qed.

Lemma turn_shape_follow_ups (this : MCPClient) (first : jsval)
    (msgs : list jsval) (evs : Trace) :
  turn_shape this msgs evs ->
  forall ex, exchanges ex -> msgs = first :: ex ->
             Forall (follow_up_of this first) evs.
Proof.
  induction 1 as [msgs|msgs ev rest Hev _ IH|msgs n a rest Hrest
                 |msgs n a id tn ta text shown rest Hshown _ IH];
    intros ex Hex ->.
  - constructor.
  - constructor; [destruct ev; simpl in *; tauto|now apply (IH ex)].
  - constructor; [exact I|].
    revert Hrest. apply Forall_impl. intros []; simpl; tauto.
  - constructor; [exact I|]. apply Forall_app. split.
    + revert Hshown. apply Forall_impl. intros []; simpl; tauto.
    + constructor.
      * exists (ex ++ [assistant_tool_use_msg id tn ta;
                       tool_result_msg id text])%list.
        split; [now apply exchanges_snoc|]. split; [|reflexivity].
        destruct ex; discriminate.
      * apply (IH _ (exchanges_snoc _ id tn ta text Hex)). reflexivity.
Qed.

Section Turn.

Variable env : Env.
Variable this : MCPClient.

(** C6, as the code has it.  A tool-use block whose call to the server
    returns a result is answered by exactly one follow-up request, the
    last thing the block does, after the call and the terminal output.
    Its message list, which is also the transcript the loop goes on with,
    is the list before the block with two messages more: the [tool_use]
    message with the id, the name and the input of the block and, right
    after it, the [tool_result] message of the same id with the content
    of the result.  A block whose call throws gets no follow-up request:
    the call is all it does.  So, within a turn, every request after the
    first carries the user message and a run of such pairs. *)
Theorem tool_use_is_answered_before_the_follow_up :
  (forall (content : jsval) (st : Locals) (tr : Trace) (result : jsval),
     is_tool_use content ->
     let dn := fst (dispatch (prop content "name") (prop content "input")) in
     let da := snd (dispatch (prop content "name") (prop content "input")) in
     mcp_callTool env tr dn da = inr result ->
     nullish result = false ->
     let next :=
       (messages st
        ++ [VObj [("role", VStr "assistant");
                  ("content",
                   VArr [VObj [("type", VStr "tool_use");
                               ("id", prop content "id");
                               ("name", prop content "name");
                               ("input", prop content "input")]])];
            VObj [("role", VStr "user");
                  ("content",
                   VArr [VObj [("type", VStr "tool_result");
                               ("tool_use_id", prop content "id");
                               ("content",
                                VStr (content_text result
                                      ++ items_text env result))]])]])%list in
     exists shown,
       Forall is_console shown
       /\ snd (process_content env this content st tr)
          = (tr ++ EvCallTool dn da
                   :: shown ++ [EvSend (followUpCommandParams this next)])%list
       /\ sends (EvCallTool dn da
                 :: shown ++ [EvSend (followUpCommandParams this next)])%list
          = [followUpCommandParams this next]
       /\ forall st',
            fst (process_content env this content st tr) = inr st' ->
            messages st' = next)
  /\ (forall (content : jsval) (st : Locals) (tr : Trace) (e : Exn),
        is_tool_use content ->
        let dn := fst (dispatch (prop content "name") (prop content "input")) in
        let da := snd (dispatch (prop content "name") (prop content "input")) in
        mcp_callTool env tr dn da = inl e ->
        process_content env this content st tr
        = (inl e, (tr ++ [EvCallTool dn da])%list))
  /\ (forall (query : string) (tr : Trace),
        exists (response : string) (evs : Trace),
          processQuery env this query tr
          = (inr response,
             (tr ++ EvSend (commandParams this [user_text_msg query])
                 :: evs)%list)
          /\ turn_shape this [user_text_msg query] evs
          /\ Forall (follow_up_of this (user_text_msg query)) evs).
Proof.
  split; [|split].
  - intros content st tr result Htu dn da Hcall Hres next.
    rewrite (process_content_tool_use env this _ _ _ Htu).
    destruct Htu as (_ & _ & Hargs).
    exists (printed env result).
    split; [apply printed_is_console|].
    assert (Hsends : sends (EvCallTool dn da
                            :: printed env result
                               ++ [EvSend (followUpCommandParams this next)])%list
                     = [followUpCommandParams this next]).
    { cbn [sends]. rewrite (sends_app (printed env result)).
      destruct (console_is_local _ (printed_is_console env result)) as (_ & ->).
      reflexivity. }
    unfold block_run. fold dn da. rewrite Hargs, Hcall, Hres.
    change (messages st ++ exchange env content result)%list with next.
    destruct (model_reply env _ _) as [e|followUpBody];
      [|destruct (nullish followUpBody)];
      cbn [fst snd]; (split; [rewrite <- !app_assoc; reflexivity|]);
      (split; [exact Hsends|]); try discriminate.
    intros st' [= <-]. reflexivity.
  - intros content st tr e Htu dn da Hcall.
    rewrite (process_content_tool_use env this _ _ _ Htu).
    destruct Htu as (_ & _ & Hargs).
    unfold block_run. fold dn da. rewrite Hargs, Hcall. reflexivity.
  - intros query tr.
    destruct (processQuery_shape env this query tr)
      as (response & evs & Hrun & Hshape).
    exists response, evs. split; [exact Hrun|]. split; [exact Hshape|].
    apply (turn_shape_follow_ups _ _ _ _ Hshape []); [constructor|reflexivity].
Qed.

(** C4, as the code has it.  Whatever the session has been so far, the
    first request of a call of [processQuery] carries one message, the
    user message of this call, and every later request of the call
    carries that message and exchanges of this call only. *)
Theorem each_turn_starts_from_its_own_message
    (query : string) (tr : Trace) :
  exists (evs : Trace),
    snd (processQuery env this query tr)
    = (tr ++ EvSend (commandParams this [user_text_msg query]) :: evs)%list
    /\ body (commandParams this [user_text_msg query])
       = text_or_undefined
           (JSON_stringify (payload this [user_text_msg query]))
    /\ Forall (follow_up_of this (user_text_msg query)) evs.
Proof.
  destruct (processQuery_shape env this query tr)
    as (response & evs & Hrun & Hshape).
  exists evs. rewrite Hrun. split; [reflexivity|]. split; [reflexivity|].
  apply (turn_shape_follow_ups _ _ _ _ Hshape []); [constructor|reflexivity].
Qed.

End Turn.

(** The scenario's block against a server that answers: one follow-up
    request, with the transcript of three messages. *)
Lemma tool_use_is_answered_before_the_follow_up_witness :
  let block := Stub.tool_use_block "t1" "query_table" Stub.range_query in
  let env := Stub.one_tool_env block in
  let st := {| messages := [user_text_msg "rows above 5?"];
               finalText := []; toolResults := [] |} in
  let result := VObj [("content", VArr [Stub.text_block Stub.items_payload])] in
  let next :=
    (messages st
     ++ [VObj [("role", VStr "assistant");
               ("content",
                VArr [VObj [("type", VStr "tool_use");
                            ("id", prop block "id");
                            ("name", prop block "name");
                            ("input", prop block "input")]])];
         VObj [("role", VStr "user");
               ("content",
                VArr [VObj [("type", VStr "tool_result");
                            ("tool_use_id", prop block "id");
                            ("content",
                             VStr (content_text result
                                   ++ items_text env result))]])]])%list in
  exists shown,
    Forall is_console shown
    /\ snd (process_content env Stub.client block st [])
       = ([] ++ EvCallTool (VStr "scan_table") (scanArgs Stub.range_query)
                :: shown
                   ++ [EvSend (followUpCommandParams Stub.client next)])%list
    /\ sends (EvCallTool (VStr "scan_table") (scanArgs Stub.range_query)
              :: shown ++ [EvSend (followUpCommandParams Stub.client next)])%list
       = [followUpCommandParams Stub.client next]
    /\ forall st',
         fst (process_content env Stub.client block st []) = inr st' ->
         messages st' = next.
Proof.
  apply (proj1 (tool_use_is_answered_before_the_follow_up
                  (Stub.one_tool_env
                     (Stub.tool_use_block "t1" "query_table" Stub.range_query))
                  Stub.client)
           (Stub.tool_use_block "t1" "query_table" Stub.range_query)
           {| messages := [user_text_msg "rows above 5?"];
              finalText := []; toolResults := [] |}
           []
           (VObj [("content", VArr [Stub.text_block Stub.items_payload])])).
  - repeat split.
  - reflexivity.
  - reflexivity.
Defined.

(** C6, refuted.  The model's reply holds one tool-use block, and the
    server refuses the call: the turn makes the call and no request after
    the first.  The block gets no follow-up request. *)
Lemma refused_call_gets_no_follow_up :
  let env := Stub.failing_tool_env in
  let first := commandParams Stub.client [user_text_msg "show the users"] in
  let run := processQuery env Stub.client "show the users" [] in
  tool_uses_of (model_reply env [] first) = 1
  /\ called (snd run)
     = [(VStr "scan_table", VObj [("tableName", VStr "Users")])]
  /\ sends (snd run) = [first]
  /\ fst run
     = inr ("Error: " ++ "MCP error -32602: Tool scan_table not found").
Proof. vm_compute. repeat split. Qed.

(** C4, refuted.  Two turns against a model that answers in text: the
    second turn sends one request, whose message list is the second
    question alone; neither the first question nor the first answer
    occurs in its body. *)
Lemma second_turn_forgets_the_first :
  let env := Stub.scripted
               [Stub.reply [Stub.text_block "first answer"];
                Stub.reply [Stub.text_block "second answer"]]
               (Stub.text_result Stub.items_payload) Stub.catalogue [] in
  let tr1 := snd (processQuery env Stub.client "first question" []) in
  let tr2 := snd (processQuery env Stub.client "second question" tr1) in
  let second := commandParams Stub.client [user_text_msg "second question"] in
  fst (processQuery env Stub.client "first question" []) = inr "first answer"
  /\ sends tr2
     = [commandParams Stub.client [user_text_msg "first question"]; second]
  /\ occurs "first question" (body second) = false
  /\ occurs "first answer" (body second) = false
  /\ occurs "second question" (body second) = true.
Proof. vm_compute. repeat split. Qed.

(* ================================================================== *)
(** ** The session: the interactive loop and [main] *)
(* ================================================================== *)

Section Session.

Variable env : Env.

Lemma turn_shape_requests (this : MCPClient) (msgs : list jsval) (evs : Trace) :
  turn_shape this msgs evs -> Forall (loop_event this) evs.
Proof.
  induction 1 as [msgs|msgs ev rest Hev _ IH|msgs n a rest Hrest
                 |msgs n a id tn ta text shown rest Hshown _ IH].
  - constructor.
  - constructor; [destruct ev; simpl in *; tauto|exact IH].
  - constructor; [exact I|].
    revert Hrest. apply Forall_impl. intros []; simpl; tauto.
  - constructor; [exact I|]. apply Forall_app. split.
    + revert Hshown. apply Forall_impl. intros []; simpl; tauto.
    + constructor; [|exact IH]. eexists. right. reflexivity.
Qed.

Lemma processQuery_requests (this : MCPClient) (query : string) (tr : Trace) :
  exists response evs,
    processQuery env this query tr = (inr response, (tr ++ evs)%list)
    /\ Forall (loop_event this) evs.
Proof.
  destruct (processQuery_shape env this query tr)
    as (response & evs & Hrun & Hshape).
  exists response, (EvSend (commandParams this [user_text_msg query]) :: evs).
  split; [exact Hrun|]. constructor.
  - eexists. left. reflexivity.
  - apply (turn_shape_requests _ _ _ Hshape).
Qed.

(** The loop never throws; it stops on the first quit line, or waits at
    the end of the input. *)
Lemma chat_rounds_spec (this : MCPClient) (stdin : list string) :
  forall tr,
    exists evs,
      chat_rounds env this stdin tr
      = (inr (if has_quit stdin then Quit else EndOfInput), (tr ++ evs)%list)
      /\ Forall (loop_event this) evs.
Proof.
  induction stdin as [|message rest IH]; intros tr.
  - exists [EvQuestion query_prompt]. split; [reflexivity|].
    repeat constructor.
  - cbn [chat_rounds has_quit existsb]. unfold bind at 1, emit at 1.
    destruct (toLowerCase message =? "quit") eqn:Hq; cbn [orb].
    { exists [EvQuestion query_prompt]. split; [reflexivity|].
      repeat constructor. }
    destruct (toLowerCase message =? "tools").
    { destruct (IH (tr ++ [EvQuestion query_prompt])%list) as (evs & Hrun & Hevs).
      exists (EvQuestion query_prompt :: evs). split.
      - rewrite Hrun. now rewrite <- app_assoc.
      - constructor; [exact I|exact Hevs]. }
    unfold bind at 1.
    destruct (processQuery_requests this message
                (tr ++ [EvQuestion query_prompt])%list)
      as (response & evs1 & Hrun1 & Hevs1).
    rewrite Hrun1. unfold bind at 1, emit at 1.
    destruct (IH (((tr ++ [EvQuestion query_prompt]) ++ evs1)
                  ++ [EvConsoleLog [CVal (VStr (nl ++ response))]])%list)
      as (evs2 & Hrun2 & Hevs2).
    exists (EvQuestion query_prompt
            :: evs1 ++ EvConsoleLog [CVal (VStr (nl ++ response))] :: evs2)%list.
    split.
    + unfold has_quit in Hrun2. rewrite Hrun2.
      now rewrite <- !app_assoc.
    + constructor; [exact I|]. apply Forall_app. split; [exact Hevs1|].
      constructor; [exact I|exact Hevs2].
Qed.

Lemma chatLoop_spec (this : MCPClient) (stdin : list string) (tr : Trace) :
  exists evs,
    chatLoop env this stdin tr
    = (inr (if has_quit stdin then Quit else EndOfInput), (tr ++ evs)%list)
    /\ Forall (loop_event this) evs.
Proof.
  unfold chatLoop, bind, emit.
  match goal with
  | |- context [chat_rounds env this stdin ?t] =>
      destruct (chat_rounds_spec this stdin t) as (evs & Hrun & Hevs);
      rewrite Hrun
  end.
  destruct (has_quit stdin).
  - eexists. split.
    + rewrite <- !app_assoc. cbn [app]. reflexivity.
    + repeat (constructor; [exact I|]).
      apply Forall_app. split; [exact Hevs|repeat constructor].
  - eexists. split.
    + rewrite <- !app_assoc. cbn [app]. reflexivity.
    + repeat (constructor; [exact I|]). exact Hevs.
Qed.

Lemma tool_of_listing_silent (tool : jsval) (tr : Trace) :
  exists r, tool_of_listing tool tr = (r, tr).
Proof.
  unfold tool_of_listing, bind, get.
  destruct (nullish tool); eexists; reflexivity.
Qed.

Lemma mapM_tool_of_listing_silent (elems : list jsval) (tr : Trace) :
  exists r, mapM tool_of_listing elems tr = (r, tr).
Proof.
  induction elems as [|tool rest IH].
  - eexists. reflexivity.
  - cbn [mapM]. unfold bind at 1.
    destruct (tool_of_listing_silent tool tr) as (r1 & ->).
    destruct r1 as [e|t]; [eexists; reflexivity|].
    unfold bind. destruct IH as (r & ->).
    destruct r; eexists; reflexivity.
Qed.

Lemma tools_of_result_silent (toolsResult : jsval) (tr : Trace) :
  exists r, tools_of_result toolsResult tr = (r, tr).
Proof.
  unfold tools_of_result, bind, get.
  destruct (nullish toolsResult); [eexists; reflexivity|].
  unfold ret at 1. cbv beta iota.
  destruct (prop toolsResult "tools") as [| | | | |elems|];
    try (eexists; reflexivity).
  apply mapM_tool_of_listing_silent.
Qed.

(** Connecting sends nothing to the model, and keeps the model id and the
    inference profile of the client. *)
Lemma connectToServer_spec (this : MCPClient) (path : string) (tr : Trace) :
  exists r evs,
    connectToServer env this path tr = (r, (tr ++ evs)%list)
    /\ Forall startup_event evs
    /\ forall this',
         r = inr this' ->
         modelId this' = modelId this
         /\ inferenceProfileId this' = inferenceProfileId this.
Proof.
  unfold connectToServer, try_catch.
  destruct (negb (endsWith path ".js") && negb (endsWith path ".py")).
  { unfold throw at 1, bind, emit, throw. eexists. eexists.
    split; [reflexivity|]. split; [repeat constructor|discriminate]. }
  unfold bind at 1, emit at 1. unfold bind at 1, call.
  match goal with
  | |- context [mcp_listTools env ?t] =>
      destruct (mcp_listTools env t) as [e|toolsResult]
  end.
  { unfold bind, emit, throw. eexists. eexists.
    split; [rewrite <- !app_assoc; reflexivity|].
    split; [repeat constructor|discriminate]. }
  unfold bind at 1.
  match goal with
  | |- context [tools_of_result toolsResult ?t] =>
      destruct (tools_of_result_silent toolsResult t) as (r & ->)
  end.
  destruct r as [e|ts].
  { unfold bind, emit, throw. eexists. eexists.
    split; [rewrite <- !app_assoc; reflexivity|].
    split; [repeat constructor|discriminate]. }
  unfold bind, emit, ret. eexists. eexists.
  split; [rewrite <- !app_assoc; reflexivity|].
  split; [repeat constructor|].
  intros this' [= <-]. split; reflexivity.
Qed.

End Session.

Section Program.

Variable env : Env.

Lemma loop_event_fixed_model (this : MCPClient) (ev : Event) :
  modelId this = fixed_model_id ->
  inferenceProfileId this = VNull ->
  loop_event this ev -> uses_fixed_model ev.
Proof.
  intros Hm Hp. destruct ev; simpl; try tauto.
  intros (msgs & [-> | ->]); unfold commandParams, followUpCommandParams;
    cbn [Eff.modelId inferenceProfileArn]; rewrite ?Hp; cbn [truthy];
    split; solve [reflexivity | exact Hm].
Qed.

Lemma startup_event_fixed_model (evs : Trace) :
  Forall startup_event evs -> Forall uses_fixed_model evs.
Proof.
  apply Forall_impl. intros []; simpl; tauto.
Qed.

(** [main] once the server path is there: the banner, the connection,
    the loop, the cleanup. *)
Lemma main_unfold (argv stdin : list string) (tr : Trace) :
  (3 <= List.length argv)%nat ->
  main env argv stdin tr
  = match
      (this <- connectToServer env (new_MCPClient VUndef)
                 (nth 2 argv EmptyString) ;;
       chatLoop env this stdin) (tr ++ [profile_banner])%list
    with
    | (inr EndOfInput, tr') => (Pending, tr')
    | (_, tr') =>
        match cleanup env tr' with
        | (inr _, tr'') => (Exited 0, tr'')
        | (inl e, tr'') => (Rejected e, tr'')
        end
    end.
Proof.
  intros Hlen. unfold main.
  replace (List.length argv <? 3)%nat with false
    by (symmetry; apply Nat.ltb_ge; exact Hlen).
  reflexivity.
Qed.

(** Every request [main] sends names the fixed model and no profile. *)
Lemma main_requests (argv stdin : list string) (tr : Trace) :
  exists evs,
    snd (main env argv stdin tr) = (tr ++ evs)%list
    /\ Forall uses_fixed_model evs.
Proof.
  destruct (Nat.ltb_spec (List.length argv) 3) as [Hlt|Hlen].
  { unfold main. apply Nat.ltb_lt in Hlt. rewrite Hlt.
    eexists. split; [reflexivity|repeat constructor]. }
  rewrite (main_unfold _ _ _ Hlen). unfold bind.
  destruct (connectToServer_spec env (new_MCPClient VUndef)
              (nth 2 argv EmptyString) (tr ++ [profile_banner])%list)
    as (r & evs1 & Hrun & Hevs1 & Hkeep).
  rewrite Hrun.
  apply startup_event_fixed_model in Hevs1.
  assert (Hend : forall evs,
             Forall uses_fixed_model evs ->
             exists all,
               snd (match cleanup env ((tr ++ [profile_banner]) ++ evs)%list with
                    | (inr _, tr'') => (Exited 0, tr'')
                    | (inl e, tr'') => (Rejected e, tr'')
                    end) = (tr ++ all)%list
               /\ Forall uses_fixed_model all).
  { intros evs Hevs. unfold cleanup, call.
    exists (profile_banner :: evs ++ [EvClose])%list. split.
    - destruct (mcp_close env _); cbn [snd]; now rewrite <- !app_assoc.
    - constructor; [exact I|]. apply Forall_app.
      split; [exact Hevs|repeat constructor]. }
  destruct r as [e|this'].
  { apply Hend, Hevs1. }
  destruct (Hkeep this' eq_refl) as (Hm & Hp).
  destruct (chatLoop_spec env this' stdin ((tr ++ [profile_banner]) ++ evs1)%list)
    as (evs2 & Hloop & Hevs2).
  rewrite Hloop.
  assert (Hfix : Forall uses_fixed_model (evs1 ++ evs2)%list).
  { apply Forall_app. split; [exact Hevs1|].
    revert Hevs2. apply Forall_impl. intros ev.
    now apply loop_event_fixed_model. }
  destruct (has_quit stdin).
  - rewrite <- (app_assoc _ evs1 evs2). apply Hend, Hfix.
  - exists (profile_banner :: evs1 ++ evs2)%list. cbn [snd]. split.
    + now rewrite <- !app_assoc.
    + constructor; [exact I|exact Hfix].
Qed.

(** How [main] ends when [cleanup] does not throw. *)
Lemma main_outcome (argv stdin : list string) (tr : Trace) :
  (3 <= List.length argv)%nat ->
  (forall t, mcp_close env t = inr tt) ->
  fst (main env argv stdin tr)
  = match fst (connectToServer env (new_MCPClient VUndef)
                 (nth 2 argv EmptyString) (tr ++ [profile_banner])%list) with
    | inl _ => Exited 0
    | inr _ => if has_quit stdin then Exited 0 else Pending
    end.
Proof.
  intros Hlen Hclose. rewrite (main_unfold _ _ _ Hlen). unfold bind.
  destruct (connectToServer env _ _ _) as [[e|this'] tr1]; cbn [fst].
  - unfold cleanup, call. rewrite Hclose. reflexivity.
  - destruct (chatLoop_spec env this' stdin tr1) as (evs2 & Hloop & _).
    rewrite Hloop. destruct (has_quit stdin); [|reflexivity].
    unfold cleanup, call. rewrite Hclose. reflexivity.
Qed.


(** C5, as the code has it.  With a server path on the command line and
    a [cleanup] that does not throw, the process exits with code 0 when
    connecting to the server fails, and with code 0 when the user enters
    the quit keyword. *)
Theorem exit_code_is_zero_on_quit_and_on_startup_failure
    (argv stdin : list string) (tr : Trace) :
  (3 <= List.length argv)%nat ->
  (forall t, mcp_close env t = inr tt) ->
  (forall this t,
     exists e, fst (connectToServer env this (nth 2 argv EmptyString) t) = inl e)
  \/ has_quit stdin = true ->
  fst (main env argv stdin tr) = Exited 0.
Proof.
  intros Hlen Hclose Hcase. rewrite (main_outcome _ _ _ Hlen Hclose).
  destruct Hcase as [Hfail|Hquit].
  - destruct (Hfail (new_MCPClient VUndef) (tr ++ [profile_banner])%list)
      as (e & ->). reflexivity.
  - rewrite Hquit.
    destruct (fst (connectToServer env _ _ _)); reflexivity.
Qed.

(** C9.  The command line past the server path changes nothing: [main]
    behaves the same with and without an inference profile id, the
    constructor leaves [inferenceProfileId] at [null] and the model id at
    its initializer, and every request of the session names that model
    id and attaches no [inferenceProfileArn]. *)
Theorem inference_profile_argument_is_ignored
    (node script server : string) (profile1 profile2 : list string)
    (stdin : list string) (tr : Trace) :
  main env (node :: script :: server :: profile1) stdin tr
  = main env (node :: script :: server :: profile2) stdin tr
  /\ (forall p, inferenceProfileId (new_MCPClient p) = VNull
                /\ modelId (new_MCPClient p) = fixed_model_id)
  /\ exists evs,
       snd (main env (node :: script :: server :: profile1) stdin tr)
       = (tr ++ evs)%list
       /\ Forall uses_fixed_model evs.
Proof.
  split; [reflexivity|]. split; [intros p; split; reflexivity|].
  apply main_requests.
Qed.

End Program.

(** A session that connects, asks one question and quits. *)
Lemma exit_code_is_zero_on_quit_and_on_startup_failure_witness :
  let env := Stub.scripted [Stub.reply [Stub.text_block "Hello."]]
               (Stub.text_result Stub.items_payload) Stub.catalogue [] in
  has_quit ["hello"; "Quit"] = true
  /\ fst (main env ["node"; "index.js"; "server.js"] ["hello"; "Quit"] [])
     = Exited 0.
Proof.
  split; [reflexivity|].
  apply (exit_code_is_zero_on_quit_and_on_startup_failure
           (Stub.scripted [Stub.reply [Stub.text_block "Hello."]]
              (Stub.text_result Stub.items_payload) Stub.catalogue [])
           ["node"; "index.js"; "server.js"] ["hello"; "Quit"] []).
  - cbn. lia.
  - reflexivity.
  - right. reflexivity.
Defined.

(** C5, refuted.  The server is there but refuses to list its tools: the
    catalogue cannot be retrieved, [connectToServer] throws, the loop is
    never entered, and the process exits with code 0, not 1. *)
Lemma startup_failure_exits_with_zero :
  let env := Stub.scripted [] (Stub.text_result Stub.items_payload)
               (inl (JsError "MCP error -32601: Method not found")) [] in
  fst (connectToServer env (new_MCPClient VUndef) "server.js" [profile_banner])
  = inl (JsError "MCP error -32601: Method not found")
  /\ main env ["node"; "index.js"; "server.js"] [] []
     = (Exited 0,
        [profile_banner;
         EvConnect {| command := "/usr/bin/node"; args := ["server.js"] |};
         EvListTools;
         EvConsoleLog [CVal (VStr "Failed to connect to MCP server: ");
                       CExn (JsError "MCP error -32601: Method not found")];
         EvClose])
  /\ Exited 0 <> Exited 1.
Proof.
  split; [reflexivity|]. split; [reflexivity|]. discriminate.
Qed.


(** A turn whose first request is refused, and a turn whose follow-up
    request is refused: both return the error as text. *)
Example refused_requests_are_reported :
  let throttled := inl (JsError "ThrottlingException") in
  let block := Stub.tool_use_block "t1" "scan_table"
                 (VObj [("tableName", VStr "Users")]) in
  fst (processQuery
         (Stub.scripted [throttled] (Stub.text_result Stub.items_payload)
            Stub.catalogue [])
         Stub.client "hello" [])
  = inr "Error: ThrottlingException"
  /\ fst (processQuery
            (Stub.scripted [Stub.reply [block]; throttled]
               (Stub.text_result Stub.items_payload) Stub.catalogue [])
            Stub.client "hello" [])
     = inr "Error: ThrottlingException".
Proof. split; reflexivity. Qed.

(* ================================================================== *)
(** ** Further properties of the specification *)
(* ================================================================== *)

Section KeyTest.

Lemma strip_prefix_spec (lit s rest : string) :
  strip_prefix lit s = Some rest <-> s = lit ++ rest.
Proof.
  revert s. induction lit as [|a lit IH]; intros s; cbn.
  - split; [intros [= ->]|intros ->]; reflexivity.
  - destruct s as [|b s]; [split; discriminate|].
    destruct (Ascii.eqb_spec a b) as [->|Hne].
    + rewrite IH. split; [intros ->; reflexivity|intros [= ->]; reflexivity].
    + split; [discriminate|]. intros [= -> _]. contradiction.
Qed.

Lemma match_bare_id (prev : option ascii) (s : string) :
  match_bare "id" prev s = true
  <-> exists post, s = "id" ++ post /\ word_at prev = false
                   /\ word_at (peek post) = false.
Proof.
  unfold match_bare.
  destruct (strip_prefix "id" s) as [rest|] eqn:Hs.
  - apply strip_prefix_spec in Hs. subst s. cbn [append peek last_char].
    unfold word_boundary. cbn [word_at].
    change (is_word_char "i") with true. change (is_word_char "d") with true.
    split.
    + intros H. exists rest. split; [reflexivity|].
      destruct (word_at prev), (word_at (peek rest)); try discriminate; auto.
    + intros (post & [= ->] & -> & ->). reflexivity.
  - split; [discriminate|]. intros (post & -> & _). discriminate.
Qed.

Lemma match_alias_id (s : string) :
  match_alias "id" s = true
  <-> exists post, s = "#id" ++ post /\ word_at (peek post) = false.
Proof.
  unfold match_alias.
  destruct (strip_prefix "#id" s) as [rest|] eqn:Hs.
  - apply strip_prefix_spec in Hs. subst s. cbn [last_char].
    unfold word_boundary. cbn [word_at].
    change (is_word_char "d") with true.
    split.
    + intros H. exists rest. split; [reflexivity|].
      destruct (word_at (peek rest)); try discriminate; auto.
    + intros (post & [= ->] & ->). reflexivity.
  - split; [discriminate|]. intros (post & -> & _). discriminate.
Qed.

Lemma search_key_id (s : string) :
  forall prev, search_key "id" prev s = true <-> whole_word_id prev s.
Proof.
  induction s as [|c rest IH]; intros prev.
  - cbn [search_key]. rewrite orb_false_r. split.
    + intros H. apply orb_true_iff in H. destruct H as [H|H].
      * apply match_bare_id in H. destruct H as (post & H & _). discriminate.
      * apply match_alias_id in H. destruct H as (post & H & _). discriminate.
    + intros (pre & post & H & _). destruct pre; discriminate.
  - cbn [search_key]. rewrite !orb_true_iff, match_bare_id, match_alias_id, IH.
    unfold whole_word_id. split.
    + intros [[(post & H & Hp & Hq)|(post & H & Hq)]|(pre & post & H & Hp & Hq)].
      * exists EmptyString, post. auto.
      * exists "#", post. rewrite H. repeat split; auto.
      * exists (String c pre), post. rewrite H. repeat split; auto.
    + intros (pre & post & H & Hp & Hq). destruct pre as [|c' pre].
      * left. left. exists post. auto.
      * injection H as <- ->. right. exists pre, post. auto.
Qed.

(** X2.  The test of the key condition against
    [\bid\b|#id\b] succeeds exactly when the text holds [id] as a whole
    word; the alternative [#id\b] adds nothing, [#] not being a word
    character. *)
Theorem partition_key_test_is_whole_word (s : string) :
  test_partition_key partitionKey (VStr s) = true <-> whole_word_id None s.
Proof. apply search_key_id. Qed.

End KeyTest.

Section Replay.

Variable env : Env.
Variable this : MCPClient.
Hypothesis env_history_free : history_free env.

Lemma replays_ret {A} (a : A) : replays (ret a).
Proof. exists (inr a), []. intros tr. unfold ret. now rewrite app_nil_r. Qed.

Lemma replays_throw {A} (e : Exn) : replays (@throw A e).
Proof. exists (inl e), []. intros tr. unfold throw. now rewrite app_nil_r. Qed.

Lemma replays_lift {A} (r : Exn + A) : replays (lift r).
Proof. exists r, []. intros tr. unfold lift. now rewrite app_nil_r. Qed.

Lemma replays_emit (ev : Event) : replays (emit ev).
Proof. exists (inr tt), [ev]. reflexivity. Qed.

Lemma replays_get (v : jsval) (k : string) : replays (get v k).
Proof.
  unfold get. destruct (nullish v); [apply replays_throw|apply replays_ret].
Qed.

Lemma replays_bind {A B} (m : M A) (k : A -> M B) :
  replays m -> (forall a, replays (k a)) -> replays (bind m k).
Proof.
  intros (r & evs & Hm) Hk. destruct r as [e|a].
  - exists (inl e), evs. intros tr. unfold bind. now rewrite Hm.
  - destruct (Hk a) as (r' & evs' & Hka).
    exists r', (evs ++ evs')%list. intros tr. unfold bind.
    rewrite Hm, Hka. now rewrite app_assoc.
Qed.

Lemma replays_try_catch {A} (m : M A) (handler : Exn -> M A) :
  replays m -> (forall e, replays (handler e)) -> replays (try_catch m handler).
Proof.
  intros (r & evs & Hm) Hh. destruct r as [e|a].
  - destruct (Hh e) as (r' & evs' & Hhe).
    exists r', (evs ++ evs')%list. intros tr. unfold try_catch.
    rewrite Hm, Hhe. now rewrite app_assoc.
  - exists (inr a), evs. intros tr. unfold try_catch. now rewrite Hm.
Qed.

Lemma replays_send (cmd : InvokeModelCommand) : replays (send env cmd).
Proof.
  exists (bedrock_send env [] cmd), [EvSend cmd]. intros tr.
  unfold send, call. now rewrite (proj1 env_history_free tr []).
Qed.

Lemma replays_callTool (n a : jsval) : replays (callTool env n a).
Proof.
  exists (mcp_callTool env [] n a), [EvCallTool n a]. intros tr.
  unfold callTool, call. now rewrite (proj2 env_history_free tr []).
Qed.

Lemma replays_parse_result (result : jsval) : replays (parse_result env result).
Proof.
  exists (parsed_of env result), []. intros tr.
  rewrite parse_result_silent. now rewrite app_nil_r.
Qed.

Lemma replays_process_tool_use (content : jsval) (st : Locals) :
  replays (process_tool_use env this content st).
Proof.
  unfold process_tool_use.
  apply replays_bind; [apply replays_get|intros _].
  apply replays_bind.
  { destruct (strict_eq_str _ _ && _);
      (apply replays_bind; [apply replays_callTool|intros r; apply replays_ret]). }
  intros [result st1].
  apply replays_bind.
  { exists (inr tt), (printed env result). intros tr. apply print_items_eq. }
  intros _. apply replays_bind.
  { unfold toolResultContent_of. apply replays_bind; [apply replays_get|].
    intros rc. destruct rc; apply replays_ret. }
  intros toolResultContent. apply replays_bind.
  { exists (inr (items_text env result)), []. intros tr.
    rewrite itemsText_of_eq. now rewrite app_nil_r. }
  intros itemsText. apply replays_bind; [apply replays_send|].
  intros followUpResponse. apply replays_bind; [apply replays_lift|].
  intros followUpBody. apply replays_bind; [apply replays_get|].
  intros fc. destruct (truthy fc && _ && _); apply replays_ret.
Qed.

Lemma replays_process_content (content : jsval) (st : Locals) :
  replays (process_content env this content st).
Proof.
  unfold process_content. apply replays_bind; [apply replays_get|].
  intros ty. destruct (strict_eq_str ty "text"); [apply replays_ret|].
  destruct (strict_eq_str ty "tool_use");
    [apply replays_process_tool_use|apply replays_ret].
Qed.

Lemma replays_for_of (blocks : list jsval) :
  forall st, replays (for_of env this blocks st).
Proof.
  induction blocks as [|content rest IH]; intros st; cbn [for_of].
  - apply replays_ret.
  - apply replays_bind; [apply replays_process_content|exact IH].
Qed.

Lemma replays_processQuery (query : string) :
  replays (processQuery env this query).
Proof.
  unfold processQuery. apply replays_try_catch.
  - unfold try_block. apply replays_bind; [apply replays_send|].
    intros response. apply replays_bind; [apply replays_lift|].
    intros responseBody. apply replays_bind; [apply replays_get|].
    intros rcontent. apply replays_bind.
    { destruct rcontent; cbn [iterate];
        solve [apply replays_throw | apply replays_ret]. }
    intros blocks. apply replays_bind; [apply replays_for_of|].
    intros st. apply replays_ret.
  - intros e. apply replays_bind; [apply replays_emit|].
    intros _. apply replays_ret.
Qed.

End Replay.

(** X3.  Against a backend whose answers do not depend on the history,
    the same query gives the same displayed output, and the same requests
    and calls, whenever it is asked. *)
Theorem same_query_same_output
    (env : Env) (this : MCPClient) (query : string) (tr1 tr2 : Trace) :
  history_free env ->
  fst (processQuery env this query tr1) = fst (processQuery env this query tr2)
  /\ exists evs,
       snd (processQuery env this query tr1) = (tr1 ++ evs)%list
       /\ snd (processQuery env this query tr2) = (tr2 ++ evs)%list.
Proof.
  intros Hfree.
  destruct (replays_processQuery env this Hfree query) as (r & evs & Hrun).
  rewrite (Hrun tr1), (Hrun tr2). split; [reflexivity|].
  exists evs. split; reflexivity.
Qed.

Lemma same_query_same_output_witness :
  let env := Stub.steady
               (VObj [("content",
                       VArr [Stub.tool_use_block "t1" "scan_table"
                               (VObj [("tableName", VStr "Users")]);
                             Stub.text_block "Done."])])
               (Stub.text_result Stub.items_payload)
               [(Stub.items_payload, Stub.items_value)] in
  let first := processQuery env Stub.client "all users?" [] in
  fst first = fst (processQuery env Stub.client "all users?" (snd first))
  /\ exists evs,
       snd first = ([] ++ evs)%list
       /\ snd (processQuery env Stub.client "all users?" (snd first))
          = (snd first ++ evs)%list.
Proof.
  apply same_query_same_output.
  split; intros; reflexivity.
Defined.

Section Quit.

Variable env : Env.

Lemma closes_app (a b : Trace) :
  closes (a ++ b)%list = closes a + closes b.
Proof.
  induction a as [|ev a IH]; [reflexivity|].
  destruct ev; cbn [app closes]; rewrite IH; reflexivity.
Qed.

Lemma startup_events_keep_open (evs : Trace) :
  Forall startup_event evs -> closes evs = 0.
Proof.
  induction 1 as [|ev evs Hev _ IH]; [reflexivity|].
  destruct ev; simpl in *; tauto.
Qed.

Lemma loop_events_keep_open (this : MCPClient) (evs : Trace) :
  Forall (loop_event this) evs -> closes evs = 0.
Proof.
  induction 1 as [|ev evs Hev _ IH]; [reflexivity|].
  destruct ev; simpl in *; tauto.
Qed.

(** X4.  The quit keyword, in any letter case, stops the loop at once:
    nothing is sent to the model or to the server for that line or for
    the lines after it.  A session in which it is entered closes the
    channel to the server exactly once, as its last action. *)
Theorem quit_ends_the_session :
  (forall (this : MCPClient) (line : string) (rest : list string) (tr : Trace),
     (toLowerCase line =? "quit") = true ->
     chat_rounds env this (line :: rest) tr
     = (inr Quit, (tr ++ [EvQuestion query_prompt])%list))
  /\ (forall (argv stdin : list string) (tr : Trace),
        (3 <= List.length argv)%nat ->
        has_quit stdin = true ->
        exists evs,
          snd (main env argv stdin tr) = (tr ++ evs ++ [EvClose])%list
          /\ closes evs = 0).
Proof.
  split.
  - intros this line rest tr Hq. cbn [chat_rounds]. unfold bind, emit.
    rewrite Hq. reflexivity.
  - intros argv stdin tr Hlen Hquit.
    rewrite (main_unfold env _ _ _ Hlen). unfold bind.
    destruct (connectToServer_spec env (new_MCPClient VUndef)
                (nth 2 argv EmptyString) (tr ++ [profile_banner])%list)
      as (r & evs1 & Hrun & Hevs1 & _).
    rewrite Hrun. apply startup_events_keep_open in Hevs1.
    destruct r as [e|this'].
    + exists (profile_banner :: evs1). split.
      * unfold cleanup, call.
        destruct (mcp_close env _); cbn [snd]; now rewrite <- !app_assoc.
      * exact Hevs1.
    + destruct (chatLoop_spec env this' stdin
                  ((tr ++ [profile_banner]) ++ evs1)%list)
        as (evs2 & Hloop & Hevs2).
      rewrite Hloop, Hquit. apply loop_events_keep_open in Hevs2.
      exists (profile_banner :: evs1 ++ evs2)%list. split.
      * unfold cleanup, call.
        destruct (mcp_close env _); cbn [snd];
          rewrite <- ?app_assoc; cbn [app]; rewrite <- ?app_assoc;
          reflexivity.
      * cbn [closes profile_banner]. rewrite closes_app. lia.
Qed.

(** Without a region in the environment the module throws while it
    loads: [main] is not called, nothing is sent anywhere. *)
Theorem missing_region_is_fatal
    (region : jsval) (argv stdin : list string) :
  truthy region = false ->
  program env region argv stdin
  = (Uncaught (JsError "AWS_REGION is not set in .env file"), []).
Proof.
  intros H. unfold program. rewrite H. reflexivity.
Qed.

End Quit.

Lemma quit_ends_the_session_witness :
  chat_rounds Stub.list_tables_env Stub.client ["QUIT"; "which tables?"] []
  = (inr Quit, ([] ++ [EvQuestion query_prompt])%list)
  /\ exists evs,
       snd (main Stub.list_tables_env ["node"; "index.js"; "server.js"]
              ["which tables?"; "quit"] [])
       = ([] ++ evs ++ [EvClose])%list
       /\ closes evs = 0.
Proof.
  split.
  - apply (proj1 (quit_ends_the_session Stub.list_tables_env)). reflexivity.
  - apply (proj2 (quit_ends_the_session Stub.list_tables_env)).
    + cbn. lia.
    + reflexivity.
Defined.

Lemma missing_region_is_fatal_witness :
  program Stub.list_tables_env VUndef ["node"; "index.js"; "server.js"] ["quit"]
  = (Uncaught (JsError "AWS_REGION is not set in .env file"), []).
Proof.
  apply missing_region_is_fatal. reflexivity.
Defined.

(** The scenario of the specification: asked about the tables, the
    model requests [list-tables] with no arguments; the client calls it
    as requested, and then asks for the follow-up completion with the
    server's result in the transcript. *)
Example list_tables_scenario :
  let run := processQuery Stub.list_tables_env Stub.client "which tables?" [] in
  let names := "[" ++ quote "Users" ++ "," ++ quote "Orders" ++ "]" in
  let result := VArr [Stub.text_block names] in
  let transcript :=
    [user_text_msg "which tables?";
     assistant_tool_use_msg (VStr "t1") (VStr "list-tables") (VObj []);
     tool_result_msg (VStr "t1")
       (text_or_undefined (JSON_stringify result))] in
  snd run
  = [EvSend (commandParams Stub.client [user_text_msg "which tables?"]);
     EvCallTool (VStr "list-tables") (VObj []);
     EvSend (followUpCommandParams Stub.client transcript)]
  /\ occurs "Users" (body (followUpCommandParams Stub.client transcript)) = true
  /\ occurs "Orders" (body (followUpCommandParams Stub.client transcript)) = true
  /\ fst run
     = inr ("[Calling tool list-tables with args {}]" ++ nl
            ++ "[Calling tool list-tables with args {}]" ++ nl
            ++ "You have two tables.").
Proof. vm_compute. repeat split. Qed.

(* ================================================================== *)
(** ** The requests built by the client *)
(* ================================================================== *)

Section Requests.

Variable this : MCPClient.

(** X5.  A follow-up request has the wire format of a first request with
    the same messages: the same model id, content type and accept header,
    and the same body, the [tools] key being written when the client has
    tools and left out, its value being [undefined], when it has none.
    It never carries an inference profile. *)
Theorem follow_up_has_the_format_of_a_first_request (msgs : list jsval) :
  body (followUpCommandParams this msgs) = body (commandParams this msgs)
  /\ Eff.modelId (followUpCommandParams this msgs)
     = Eff.modelId (commandParams this msgs)
  /\ contentType (followUpCommandParams this msgs)
     = contentType (commandParams this msgs)
  /\ accept (followUpCommandParams this msgs)
     = accept (commandParams this msgs)
  /\ inferenceProfileArn (followUpCommandParams this msgs) = None
  /\ (truthy (inferenceProfileId this) = false ->
      followUpCommandParams this msgs = commandParams this msgs).
Proof.
  assert (Hbody : JSON_stringify (followUpPayload this msgs)
                  = JSON_stringify (payload this msgs)).
  { unfold JSON_stringify, followUpPayload, payload, toolsForBedrock.
    destruct (0 <? List.length (tools this))%nat; [reflexivity|].
    cbn [fields_of serialize]. rewrite !flat_map_app.
    cbn [flat_map serialize app]. rewrite ?app_nil_r. reflexivity. }
  unfold followUpCommandParams, commandParams.
  cbn [body Eff.modelId contentType accept inferenceProfileArn].
  rewrite Hbody. repeat split.
  intros ->. reflexivity.
Qed.

End Requests.

(* ================================================================== *)
(** ** Turns: text, bounds, failures *)
(* ================================================================== *)

Section Turns.

Variable env : Env.
Variable this : MCPClient.

Lemma process_content_text (content : jsval) (st : Locals) (tr : Trace) :
  is_text_block content ->
  process_content env this content st tr
  = (inr (push_finalText st (prop content "text")), tr).
Proof.
  intros (Hc & Hty). unfold process_content, bind.
  rewrite (get_ok _ _ _ Hc), Hty. reflexivity.
Qed.

(** Text blocks add their texts to the output, in order, and nothing
    else happens. *)
Lemma for_of_texts (blocks : list jsval) :
  forall (st : Locals) (tr : Trace),
    Forall is_text_block blocks ->
    for_of env this blocks st tr
    = (inr {| messages := messages st;
              finalText :=
                (finalText st ++ map (fun c => prop c "text") blocks)%list;
              toolResults := toolResults st |}, tr).
Proof.
  induction blocks as [|content rest IH]; intros st tr Hall.
  - cbn [for_of map ret]. rewrite app_nil_r. now destruct st.
  - inversion Hall as [|? ? Hc Hrest]; subst.
    cbn [for_of]. unfold bind. rewrite (process_content_text _ _ _ Hc).
    rewrite (IH _ _ Hrest). cbn [push_finalText messages finalText toolResults map].
    now rewrite <- app_assoc.
Qed.

(** X6.  When the model answers with text blocks only, the turn is one
    request and nothing more: no call to the server, no follow-up, no
    terminal output; what is returned is the texts of the blocks, in
    order, joined by line feeds. *)
Theorem text_reply_is_returned_as_it_is
    (query : string) (tr : Trace) (responseBody : jsval) (blocks : list jsval) :
  model_reply env tr (commandParams this [user_text_msg query])
  = inr responseBody ->
  prop responseBody "content" = VArr blocks ->
  Forall is_text_block blocks ->
  processQuery env this query tr
  = (inr (Array_join nl (map (fun c => prop c "text") blocks)),
     (tr ++ [EvSend (commandParams this [user_text_msg query])])%list).
Proof.
  intros Hreply Hcontent Htexts.
  unfold processQuery, try_catch, try_block.
  unfold bind at 1, send, call. unfold model_reply in Hreply.
  destruct (bedrock_send env tr _) as [e|bytes]; [discriminate|].
  unfold bind at 1, lift. rewrite Hreply.
  assert (Hb : nullish responseBody = false)
    by (destruct responseBody; try reflexivity; discriminate).
  unfold bind at 1. rewrite (get_ok _ _ _ Hb), Hcontent.
  unfold bind at 1. cbn [iterate ret]. unfold bind.
  rewrite (for_of_texts _ _ _ Htexts). reflexivity.
Qed.

(** One round of the loop: at most one call, made only for a block of
    type [tool_use], and at most one request, made only after a call. *)
Lemma process_content_bounds (content : jsval) (st : Locals) (tr : Trace) :
  exists evs,
    snd (process_content env this content st tr) = (tr ++ evs)%list
    /\ calls evs <= (if asks_tool content then 1 else 0)
    /\ List.length (sends evs) <= calls evs.
Proof.
  unfold process_content, bind, asks_tool.
  destruct (nullish content) eqn:Hc.
  { rewrite (get_throws _ _ _ Hc). exists []. cbn. rewrite app_nil_r.
    repeat split; lia. }
  rewrite (get_ok _ _ _ Hc).
  destruct (strict_eq_str (prop content "type") "text").
  { exists []. cbn. rewrite app_nil_r. repeat split; lia. }
  destruct (strict_eq_str (prop content "type") "tool_use").
  2:{ exists []. cbn. rewrite app_nil_r. repeat split; lia. }
  rewrite process_tool_use_eq. unfold block_run.
  set (dn := fst (dispatch _ _)). set (da := snd (dispatch _ _)).
  destruct (console_is_local _ (printed_is_console env)) as [Hpc Hps]
    || pose proof (fun r => console_is_local _ (printed_is_console env r)) as Hp.
  destruct (nullish (prop content "input")).
  { exists []. cbn. rewrite app_nil_r. repeat split; lia. }
  destruct (mcp_callTool env tr dn da) as [e|result].
  { exists [EvCallTool dn da]. cbn. repeat split; lia. }
  destruct (Hp result) as [Hpc Hps].
  destruct (nullish result).
  { exists (EvCallTool dn da :: printed env result). cbn [snd].
    split; [now rewrite <- app_assoc|].
    cbn [calls sends]. rewrite Hpc, Hps. cbn. split; lia. }
  destruct (model_reply env _ _) as [e|followUpBody];
    [|destruct (nullish followUpBody)];
    (eexists (EvCallTool dn da :: printed env result ++ [EvSend _])%list;
     cbn [snd]; split; [rewrite <- !app_assoc; reflexivity|];
     cbn [calls sends]; rewrite calls_app, sends_app, Hpc, Hps;
     cbn; split; lia).
Qed.

Lemma for_of_bounds (blocks : list jsval) :
  forall (st : Locals) (tr : Trace),
    exists evs,
      snd (for_of env this blocks st tr) = (tr ++ evs)%list
      /\ calls evs <= List.length (filter asks_tool blocks)
      /\ List.length (sends evs) <= calls evs.
Proof.
  induction blocks as [|content rest IH]; intros st tr.
  - exists []. cbn. rewrite app_nil_r. repeat split; lia.
  - cbn [for_of filter]. unfold bind.
    destruct (process_content_bounds content st tr) as (evs1 & Htr1 & Hc1 & Hs1).
    destruct (process_content env this content st tr) as [[e|st'] tr1];
      cbn [snd] in Htr1; subst tr1.
    + exists evs1. cbn [snd]. split; [reflexivity|].
      destruct (asks_tool content); cbn [List.length]; lia.
    + destruct (IH st' (tr ++ evs1)%list) as (evs2 & Htr2 & Hc2 & Hs2).
      exists (evs1 ++ evs2)%list. rewrite Htr2, app_assoc.
      split; [reflexivity|].
      rewrite calls_app, sends_app, length_app.
      destruct (asks_tool content); cbn [List.length]; lia.
Qed.

(** X7.  A turn calls the server at most once for each [tool_use] block
    of the model's first reply, and sends at most one follow-up request
    for each call: never more requests than one more than the calls,
    never a call without a [tool_use] block. *)
Theorem remote_traffic_is_bounded (query : string) (tr : Trace) :
  exists evs,
    snd (processQuery env this query tr) = (tr ++ evs)%list
    /\ calls evs
       <= tool_uses_of (model_reply env tr
                          (commandParams this [user_text_msg query]))
    /\ List.length (sends evs) <= 1 + calls evs.
Proof.
  unfold processQuery, try_catch, try_block.
  unfold bind at 1, send, call, model_reply, tool_uses_of.
  set (cmd := commandParams this [user_text_msg query]).
  assert (Hfail : forall e responder,
             exists evs,
               snd ((emit (EvConsoleError
                             [CVal (VStr "Error invoking Bedrock model:");
                              CExn e]) ;;
                     ret ("Error: " ++ error_text e)) (tr ++ [EvSend cmd])%list)
               = (tr ++ evs)%list
               /\ calls evs <= responder
               /\ List.length (sends evs) <= 1 + calls evs).
  { intros e n. eexists. unfold bind, emit, ret. cbn [snd].
    split; [rewrite <- app_assoc; reflexivity|]. cbn. split; lia. }
  destruct (bedrock_send env tr cmd) as [e|bytes]; [apply Hfail|].
  unfold bind at 1, lift.
  destruct (JSON_parse env (TextDecoder_decode bytes)) as [e|responseBody];
    [apply Hfail|].
  unfold bind at 1.
  destruct (nullish responseBody) eqn:Hb.
  { rewrite (get_throws _ _ _ Hb). apply Hfail. }
  rewrite (get_ok _ _ _ Hb). unfold bind at 1.
  assert (Hloop : forall blocks bound,
             List.length (filter asks_tool blocks) <= bound ->
             exists evs,
               snd (match
                      (st <- for_of env this blocks
                               {| messages := [user_text_msg query];
                                  finalText := []; toolResults := [] |} ;;
                       ret (Array_join nl (finalText st)))
                        (tr ++ [EvSend cmd])%list
                    with
                    | (inr a, tr') => (inr a, tr')
                    | (inl e, tr') =>
                        (emit (EvConsoleError
                                 [CVal (VStr "Error invoking Bedrock model:");
                                  CExn e]) ;;
                         ret ("Error: " ++ error_text e)) tr'
                    end) = (tr ++ evs)%list
               /\ calls evs <= bound
               /\ List.length (sends evs) <= 1 + calls evs).
  { intros blocks bound Hbound. unfold bind at 1.
    destruct (for_of_bounds blocks
                {| messages := [user_text_msg query];
                   finalText := []; toolResults := [] |}
                (tr ++ [EvSend cmd])%list) as (evs & Hevs & Hc & Hs).
    destruct (for_of env this blocks _ _) as [[e|st'] tr'];
      cbn [snd] in Hevs; subst tr'.
    - exists (EvSend cmd :: evs ++ [EvConsoleError
                 [CVal (VStr "Error invoking Bedrock model:"); CExn e]])%list.
      unfold bind, emit, ret. cbn [snd].
      split; [rewrite <- !app_assoc; reflexivity|].
      cbn [calls sends List.length]. rewrite calls_app, sends_app, length_app.
      cbn. split; lia.
    - exists (EvSend cmd :: evs). unfold ret. cbn [snd].
      split; [rewrite <- !app_assoc; reflexivity|].
      cbn [calls sends List.length]. split; lia. }
  destruct (prop responseBody "content") as [| | | | s | blocks | ];
    cbn [iterate]; try apply Hfail.
  - apply Hloop. clear. induction (list_ascii_of_string s) as [|c l IH];
      [cbn; lia|exact IH].
  - apply Hloop. lia.
Qed.

End Turns.

(* ================================================================== *)
(** ** Tool calls: failures and results without items *)
(* ================================================================== *)

Section ToolCalls.

Variable env : Env.
Variable this : MCPClient.

(** X8.  A call to the server that throws ends the turn: the text
    collected from the blocks before it is dropped, the blocks after it
    are not looked at, no follow-up is requested.  The error is reported
    under the label of the model endpoint and returned as the answer. *)
Theorem failed_tool_call_ends_the_turn
    (query : string) (tr : Trace) (responseBody : jsval)
    (texts : list jsval) (block : jsval) (rest : list jsval) (e : Exn) :
  let cmd := commandParams this [user_text_msg query] in
  let dn := fst (dispatch (prop block "name") (prop block "input")) in
  let da := snd (dispatch (prop block "name") (prop block "input")) in
  model_reply env tr cmd = inr responseBody ->
  prop responseBody "content" = VArr (texts ++ block :: rest)%list ->
  Forall is_text_block texts ->
  is_tool_use block ->
  mcp_callTool env (tr ++ [EvSend cmd])%list dn da = inl e ->
  processQuery env this query tr
  = (inr ("Error: " ++ error_text e),
     (tr ++ [EvSend cmd;
             EvCallTool dn da;
             EvConsoleError [CVal (VStr "Error invoking Bedrock model:");
                             CExn e]])%list).
Proof.
  intros cmd dn da Hreply Hcontent Htexts Htu Hcall.
  unfold processQuery, try_catch, try_block. fold cmd.
  unfold bind at 1, send, call. unfold model_reply in Hreply.
  destruct (bedrock_send env tr cmd) as [e0|bytes]; [discriminate|].
  unfold bind at 1, lift. rewrite Hreply.
  assert (Hb : nullish responseBody = false)
    by (destruct responseBody; try reflexivity; discriminate).
  unfold bind at 1. rewrite (get_ok _ _ _ Hb), Hcontent.
  unfold bind at 1. cbn [iterate ret]. unfold bind at 1.
  assert (Hloop : forall st t,
             mcp_callTool env t dn da = inl e ->
             for_of env this (texts ++ block :: rest)%list st t
             = (inl e, (t ++ [EvCallTool dn da])%list)).
  { clear Hcall Hcontent.
    induction Htexts as [|content more Hc _ IH]; intros st t Hcall.
    - cbn [app for_of]. unfold bind.
      rewrite (process_content_tool_use env this _ _ _ Htu).
      unfold block_run. destruct Htu as (_ & _ & Hargs). rewrite Hargs.
      fold dn da. rewrite Hcall. reflexivity.
    - cbn [app for_of]. unfold bind.
      rewrite (process_content_text env this _ _ _ Hc). now apply IH. }
  rewrite (Hloop _ _ Hcall). unfold bind, emit, ret.
  rewrite <- !app_assoc. reflexivity.
Qed.

Lemma parsed_of_no_payload (result : jsval) :
  nullish result = false ->
  payload_text result = None ->
  parsed_of env result = inr VNull.
Proof.
  intros Hres Hp. unfold parsed_of, parse_result, bind.
  rewrite (get_ok _ _ _ Hres). unfold payload_text in Hp.
  destruct (prop result "content") as [| | | | s | elems | ];
    try discriminate; try reflexivity.
  destruct elems as [|first more]; [reflexivity|].
  cbn [is_string Array_isArray array_length List.length index0 andb Nat.ltb
       Nat.leb].
  destruct (optional_text first); try discriminate; reflexivity.
Qed.

(** What the two introspection blocks do with a result, against its text
    payload. *)
Lemma introspection_cases (result : jsval) :
  nullish result = false ->
  (forall text parsed,
      payload_text result = Some text ->
      JSON_parse env text = inr parsed ->
      truthy parsed && truthy (prop parsed "items") = false) ->
  printed env result = [] /\ items_text env result = EmptyString.
Proof.
  intros Hres Hnone. unfold printed, items_text.
  destruct (payload_text result) as [text|] eqn:Hp.
  - rewrite (parsed_of_payload env _ _ Hres Hp).
    destruct (JSON_parse env text) as [e|parsed] eqn:Hparse; [split; reflexivity|].
    rewrite (Hnone _ _ eq_refl Hparse). split; reflexivity.
  - rewrite (parsed_of_no_payload _ Hres Hp). split; reflexivity.
Qed.

(** X9.  A tool result from which no items can be read (it has no text
    payload, or the payload is not JSON, or the parsed value is falsy or
    has no truthy [items]) changes nothing: the terminal shows nothing,
    the follow-up request is sent all the same, and its [tool_result]
    message holds the content of the result and no more. *)
Theorem result_without_items_is_passed_on_as_it_is
    (content : jsval) (st : Locals) (tr : Trace) (result : jsval) :
  let dn := fst (dispatch (prop content "name") (prop content "input")) in
  let da := snd (dispatch (prop content "name") (prop content "input")) in
  is_tool_use content ->
  mcp_callTool env tr dn da = inr result ->
  nullish result = false ->
  (forall text parsed,
      payload_text result = Some text ->
      JSON_parse env text = inr parsed ->
      truthy parsed && truthy (prop parsed "items") = false) ->
  snd (process_content env this content st tr)
  = (tr ++ [EvCallTool dn da;
            EvSend (followUpCommandParams this
                      (messages st
                       ++ [assistant_tool_use_msg (prop content "id")
                             (prop content "name") (prop content "input");
                           tool_result_msg (prop content "id")
                             (content_text result)]))])%list.
Proof.
  intros dn da Htu Hcall Hres Hnone.
  rewrite (process_content_tool_use env this _ _ _ Htu).
  destruct Htu as (_ & _ & Hargs).
  destruct (introspection_cases _ Hres Hnone) as (Hshown & Htext).
  unfold block_run. fold dn da. rewrite Hargs, Hcall, Hres.
  unfold exchange. rewrite Hshown, Htext, append_empty, app_nil_r.
  destruct (model_reply env _ _) as [e|followUpBody];
    [|destruct (nullish followUpBody)];
    cbn [snd]; rewrite <- !app_assoc; reflexivity.
Qed.

(** X10.  The two introspection blocks agree where both act: when the
    terminal shows items, it shows the very rendering that the
    [tool_result] message of the follow-up request carries after the
    heading [Actual items:]. *)
Theorem terminal_shows_what_the_model_is_told
    (content : jsval) (st : Locals) (tr : Trace) (result : jsval) :
  let dn := fst (dispatch (prop content "name") (prop content "input")) in
  let da := snd (dispatch (prop content "name") (prop content "input")) in
  is_tool_use content ->
  mcp_callTool env tr dn da = inr result ->
  nullish result = false ->
  exists shown appended,
    snd (process_content env this content st tr)
    = (tr ++ EvCallTool dn da
             :: shown
                ++ [EvSend (followUpCommandParams this
                              (messages st
                               ++ [assistant_tool_use_msg (prop content "id")
                                     (prop content "name")
                                     (prop content "input");
                                   tool_result_msg (prop content "id")
                                     (content_text result ++ appended)]))])%list
    /\ (shown = []
        \/ exists rendering,
             shown = items_shown rendering
             /\ appended = nl ++ "Actual items:" ++ nl ++ rendering).
Proof.
  intros dn da Htu Hcall Hres.
  rewrite (process_content_tool_use env this _ _ _ Htu).
  destruct Htu as (_ & _ & Hargs).
  exists (printed env result), (items_text env result). split.
  - unfold block_run. fold dn da. rewrite Hargs, Hcall, Hres. unfold exchange.
    destruct (model_reply env _ _) as [e|followUpBody];
      [|destruct (nullish followUpBody)];
      cbn [snd]; rewrite <- !app_assoc; reflexivity.
  - unfold printed, items_text.
    destruct (parsed_of env result) as [e|parsed]; [left; reflexivity|].
    destruct (truthy parsed && truthy (prop parsed "items")); cbn [andb];
      [|left; reflexivity].
    destruct (Array_isArray (prop parsed "items")); [|left; reflexivity].
    right. eexists. split; reflexivity.
Qed.

End ToolCalls.

(* ================================================================== *)
(** ** Connecting to the server *)
(* ================================================================== *)

Section Connect.

Variable env : Env.

(** X11.  A server script that is neither a [.js] nor a [.py] file is
    never started: no transport is made, the tools are not listed, no
    line of input is read, nothing is sent to the model.  The failure is
    logged, the channel is closed, and the process exits with code 0 when
    the close succeeds. *)
Theorem unsupported_script_is_never_started
    (argv stdin : list string) (tr : Trace) :
  let failure :=
    EvConsoleLog [CVal (VStr "Failed to connect to MCP server: ");
                  CExn (JsError "Server script must be a .js or .py file")] in
  (3 <= List.length argv)%nat ->
  endsWith (nth 2 argv EmptyString) ".js" = false ->
  endsWith (nth 2 argv EmptyString) ".py" = false ->
  snd (main env argv stdin tr)
  = (tr ++ [profile_banner; failure; EvClose])%list
  /\ fst (main env argv stdin tr)
     = match mcp_close env (tr ++ [profile_banner; failure])%list with
       | inr _ => Exited 0
       | inl e => Rejected e
       end.
Proof.
  intros failure Hlen Hjs Hpy.
  rewrite (main_unfold env _ _ _ Hlen).
  unfold bind at 1, connectToServer, try_catch. rewrite Hjs, Hpy.
  cbn [negb andb]. unfold throw at 1, bind, emit, throw, cleanup, call.
  rewrite <- !app_assoc. cbn [app]. fold failure.
  destruct (mcp_close env _); split; cbn [fst snd];
    rewrite <- ?app_assoc; reflexivity.
Qed.

Lemma mapM_tool_of_listing_eq (elems : list jsval) (tr : Trace) :
  Forall (fun tool => nullish tool = false) elems ->
  mapM tool_of_listing elems tr = (inr (map listed_tool elems), tr).
Proof.
  induction 1 as [|tool rest Htool _ IH]; [reflexivity|].
  assert (Hone : forall t, tool_of_listing tool t = (inr (listed_tool tool), t)).
  { intros t. unfold tool_of_listing, bind. now rewrite (get_ok _ _ _ Htool). }
  cbn [mapM map]. unfold bind at 1. rewrite Hone.
  unfold bind. rewrite IH. reflexivity.
Qed.

Lemma offered_once (tool : jsval) :
  tool_for_bedrock (listed_tool tool)
  = VObj [("name", prop tool "name");
          ("description", if truthy (prop tool "description")
                          then prop tool "description" else VStr EmptyString);
          ("input_schema", prop tool "inputSchema")].
Proof.
  unfold tool_for_bedrock, listed_tool. cbn [name description input_schema].
  destruct (truthy (prop tool "description")) eqn:Hd; [rewrite Hd|];
    reflexivity.
Qed.

(** X12.  After a successful connect the client holds the server's
    listing as it came: one entry for each listed tool, in the order of
    the listing, and the catalogue it offers to the model is that listing
    with [inputSchema] renamed to [input_schema] and a missing
    description replaced by the empty string.  An empty listing offers no
    [tools] field at all. *)
Theorem catalogue_is_offered_as_listed
    (this : MCPClient) (path : string) (tr : Trace)
    (toolsResult : jsval) (elems : list jsval) :
  endsWith path ".js" || endsWith path ".py" = true ->
  mcp_listTools env (tr ++ [EvConnect (transport_for env path)])%list
  = inr toolsResult ->
  prop toolsResult "tools" = VArr elems ->
  Forall (fun tool => nullish tool = false) elems ->
  exists this',
    connectToServer env this path tr
    = (inr this',
       (tr ++ [EvConnect (transport_for env path);
               EvListTools;
               EvConsoleLog
                 [CVal (VStr "Connected to server with tools:");
                  CVal (VArr (map (fun tool => prop tool "name") elems))]])%list)
    /\ transport this' = Some (transport_for env path)
    /\ tools this' = map listed_tool elems
    /\ toolsForBedrock this'
       = match elems with
         | [] => VObj []
         | _ =>
             VObj [("tools",
                    VArr (map (fun tool =>
                                 VObj [("name", prop tool "name");
                                       ("description",
                                        if truthy (prop tool "description")
                                        then prop tool "description"
                                        else VStr EmptyString);
                                       ("input_schema", prop tool "inputSchema")])
                              elems))]
         end.
Proof.
  intros Hext Hlist Htools Helems.
  assert (Hres : nullish toolsResult = false)
    by (destruct toolsResult; try reflexivity; discriminate).
  unfold connectToServer, try_catch.
  replace (negb (endsWith path ".js") && negb (endsWith path ".py")) with false
    by (destruct (endsWith path ".js"), (endsWith path ".py");
        try reflexivity; discriminate).
  fold (transport_for env path).
  unfold bind at 1, emit at 1. unfold bind at 1, call. rewrite Hlist.
  unfold bind at 1, tools_of_result, bind at 1.
  rewrite (get_ok _ _ _ Hres), Htools, (mapM_tool_of_listing_eq _ _ Helems).
  unfold bind, emit, ret. eexists. split; [|split; [|split]].
  - rewrite <- !app_assoc. cbn [app]. rewrite map_map. reflexivity.
  - reflexivity.
  - reflexivity.
  - unfold toolsForBedrock. cbn [tools]. rewrite length_map.
    destruct elems as [|tool rest]; [reflexivity|].
    cbn [List.length Nat.ltb Nat.leb]. rewrite map_map.
    rewrite (map_ext _ _ offered_once). reflexivity.
Qed.

End Connect.

(* ================================================================== *)
(** ** The handlers of the server *)
(* ================================================================== *)

Section Handlers.

Import Server.

Variable d : Dynamo.

Lemma smapM_unmarshall_sends_nothing (elems : list jsval) :
  snd (smapM (fun item => slift (unmarshall d item)) elems) = [].
Proof.
  induction elems as [|item rest IH]; [reflexivity|].
  cbn [smapM]. unfold sbind at 1, slift at 1.
  destruct (unmarshall d item) as [e|row]; [reflexivity|].
  unfold sbind. destruct (smapM _ rest) as [[e|rows] sent];
    cbn [snd] in IH; subst sent; reflexivity.
Qed.

Lemma smapM_unmarshall_rows (items rows : list jsval) :
  Forall2 (fun item row => unmarshall d item = inr row) items rows ->
  smapM (fun item => slift (unmarshall d item)) items = (inr rows, []).
Proof.
  induction 1 as [|item row items rows Hrow _ IH]; [reflexivity|].
  cbn [smapM]. unfold sbind at 1, slift at 1. rewrite Hrow.
  unfold sbind. rewrite IH. reflexivity.
Qed.

Lemma unmarshall_items_sends_nothing (items : jsval) :
  snd (unmarshall_items d items) = [].
Proof.
  unfold unmarshall_items.
  destruct (truthy items); [|reflexivity].
  destruct items; try reflexivity.
  unfold sbind.
  pose proof (smapM_unmarshall_sends_nothing elems) as Hsent.
  destruct (smapM _ elems) as [[e|rows] sent]; cbn [snd] in Hsent; subst sent;
    reflexivity.
Qed.

Lemma payload_text_of_text_content (text : option string) :
  payload_text (text_content text) = text.
Proof. destruct text; reflexivity. Qed.

Lemma after_send (command : Command) (k : jsval -> Srv jsval) :
  (forall resp, exists r, k resp = (r, [])
                          /\ forall result, r = inr result ->
                                            exists text, result = text_content text) ->
  answers_with_one_text_block d (sbind (ssend d command) k).
Proof.
  intros Hk. unfold answers_with_one_text_block, sbind, ssend.
  destruct (dynamo_send d command) as [e|resp] eqn:Hsend.
  - cbn [fst snd List.length]. split; [lia|]. split.
    + intros c e' [<-|[]] He'. congruence.
    + discriminate.
  - destruct (Hk resp) as (r & -> & Hr). cbn [fst snd app List.length].
    split; [lia|]. split.
    + intros c e' [<-|[]] He'. congruence.
    + intros result ->. split; [reflexivity|].
      destruct (Hr result eq_refl) as (text & ->).
      exists text. split; [reflexivity|apply payload_text_of_text_content].
Qed.

Lemma after_marshall (v : jsval) (k : jsval -> Srv jsval) :
  (forall marshalled, answers_with_one_text_block d (k marshalled)) ->
  answers_with_one_text_block d (sbind (slift (marshall d v)) k).
Proof.
  intros Hk. unfold sbind, slift.
  destruct (marshall d v) as [e|marshalled].
  - unfold answers_with_one_text_block. cbn [fst snd List.length].
    split; [lia|]. split; [intros c e' []|discriminate].
  - specialize (Hk marshalled).
    destruct (k marshalled) as [r sent]. exact Hk.
Qed.

Lemma rendered (resp : jsval) (k : string) :
  exists r,
    sbind (sget resp k) (fun v => sret (text_content (JSON_stringify v)))
    = (r, [])
    /\ forall result, r = inr result -> exists text, result = text_content text.
Proof.
  unfold sbind, sget. destruct (nullish resp).
  - eexists. split; [reflexivity|discriminate].
  - eexists. split; [reflexivity|]. intros result [= <-]. eexists. reflexivity.
Qed.

Lemma rendered_rows (resp : jsval) :
  exists r,
    sbind (sget resp "Items") (fun items =>
    sbind (unmarshall_items d items) (fun rows =>
    sret (text_content (JSON_stringify rows))))
    = (r, [])
    /\ forall result, r = inr result -> exists text, result = text_content text.
Proof.
  unfold sbind at 1, sget. destruct (nullish resp).
  - eexists. split; [reflexivity|discriminate].
  - unfold sret at 1. unfold sbind.
    pose proof (unmarshall_items_sends_nothing (prop resp "Items")) as Hsent.
    destruct (unmarshall_items d (prop resp "Items")) as [[e|rows] sent];
      cbn [snd] in Hsent; subst sent.
    + eexists. split; [reflexivity|discriminate].
    + eexists. split; [reflexivity|]. intros result [= <-].
      eexists. reflexivity.
Qed.

(** X13.  Every registered tool answers in one of two ways.  It throws:
    then, if a command was sent and the storage service refused it, what
    is thrown is the error of the service, unchanged.  Or it returns:
    then it has sent exactly one command, and the result is a single
    block of type [text], whose text is what the client reads as the
    payload of the result.  No tool sends more than one command. *)
Theorem every_tool_answers_with_one_text_block
    (tool : string) (handler : jsval -> Srv jsval) (args : jsval) :
  In (tool, handler) (handlers d) ->
  answers_with_one_text_block d (handler args).
Proof.
  intros Hin. unfold handlers in Hin. cbn [In] in Hin.
  destruct Hin as [H|[H|[H|[H|[H|[H|[H|[]]]]]]]];
    injection H as _ <-.
  - apply after_send. intros resp. apply rendered.
  - apply after_send. intros resp. apply rendered.
  - apply after_marshall. intros marshalled. apply after_send.
    intros _. eexists. split; [reflexivity|].
    intros result [= <-]. eexists. reflexivity.
  - apply after_marshall. intros marshalled. apply after_send.
    intros resp. unfold sbind at 1, sget. destruct (nullish resp).
    { eexists. split; [reflexivity|discriminate]. }
    unfold sret at 1. unfold sbind.
    destruct (truthy (prop resp "Item")).
    + unfold slift. destruct (unmarshall d (prop resp "Item")).
      * eexists. split; [reflexivity|discriminate].
      * eexists. split; [reflexivity|]. intros result [= <-].
        eexists. reflexivity.
    + eexists. split; [reflexivity|]. intros result [= <-].
      eexists. reflexivity.
  - apply after_marshall. intros marshalled. apply after_send.
    intros resp. apply rendered_rows.
  - apply after_send. intros resp. apply rendered_rows.
  - apply after_send. intros resp. apply rendered.
Qed.

(** X14.  [create-table] names the same attributes, in the same order,
    in the attribute definitions and in the key schema of the one
    command it sends: the partition key as the [HASH] key, then the sort
    key as the [RANGE] key when a truthy [sortKey] was given; an empty or
    missing [sortKey] leaves the sort key out of both. *)
Theorem create_table_defines_the_keys_it_declares (args : jsval) :
  exists input defs keys,
    snd (create_table d args) = [CreateTableCommand input]
    /\ prop input "AttributeDefinitions" = VArr defs
    /\ prop input "KeySchema" = VArr keys
    /\ attribute_names defs = attribute_names keys
    /\ attribute_names keys
       = (prop args "partitionKey"
          :: (if truthy (prop args "sortKey") then [prop args "sortKey"]
              else []))%list
    /\ map (fun key => prop key "KeyType") keys
       = firstn (List.length keys) [KeyType_HASH d; KeyType_RANGE d].
Proof.
  unfold create_table, sbind at 1, ssend.
  eexists. exists (attrDefs args), (keySchema d args).
  split.
  { destruct (dynamo_send d _) as [e|resp]; [reflexivity|].
    destruct (rendered resp "TableDescription") as (r & Hr & _).
    rewrite Hr. reflexivity. }
  split; [reflexivity|]. split; [reflexivity|].
  unfold attrDefs, keySchema, attribute_names.
  destruct (truthy (prop args "sortKey")); repeat split.
Qed.

Lemma unmarshall_items_rows (resp_items : jsval) :
  (truthy resp_items = false -> unmarshall_items d resp_items = (inr (VArr []), []))
  /\ (forall items rows,
        resp_items = VArr items ->
        Forall2 (fun item row => unmarshall d item = inr row) items rows ->
        unmarshall_items d resp_items = (inr (VArr rows), [])).
Proof.
  unfold unmarshall_items. split.
  - intros ->. reflexivity.
  - intros items rows -> Hrows. cbn [truthy]. unfold sbind.
    rewrite (smapM_unmarshall_rows _ _ Hrows). reflexivity.
Qed.

Lemma sbind_slift {A B} (a : A) (k : A -> Srv B) :
  sbind (slift (inr a)) k = k a.
Proof. unfold sbind, slift. destruct (k a). reflexivity. Qed.

Lemma sget_ok {B} (v : jsval) (k : string) (f : jsval -> Srv B) :
  nullish v = false -> sbind (sget v k) f = f (prop v k).
Proof.
  intros H. unfold sbind, sget. rewrite H. unfold sret.
  destruct (f (prop v k)). reflexivity.
Qed.

(** A handler that has sent [command] goes on with the response to it. *)
Lemma sent_one (c : Command) (k : jsval -> Srv jsval)
    (command : Command) (resp : jsval) :
  (forall r, snd (k r) = []) ->
  snd (sbind (ssend d c) k) = [command] ->
  dynamo_send d command = inr resp ->
  fst (sbind (ssend d c) k) = fst (k resp).
Proof.
  intros Hk. unfold sbind, ssend.
  destruct (dynamo_send d c) as [e|resp0] eqn:Hc.
  - cbn [snd]. intros [= <-] Hsend. congruence.
  - specialize (Hk resp0). destruct (k resp0) as [r sent] eqn:Hr.
    cbn [snd] in Hk. subst sent. cbn [fst snd app].
    intros [= <-] Hsend. assert (resp0 = resp) as -> by congruence.
    now rewrite Hr.
Qed.

Lemma rendered_rows_silent (r : jsval) :
  snd (sbind (sget r "Items") (fun items =>
       sbind (unmarshall_items d items) (fun rows =>
       sret (text_content (JSON_stringify rows))))) = [].
Proof. destruct (rendered_rows r) as (x & -> & _). reflexivity. Qed.

(** X15.  [query-table] and [scan-table] answer with the rendering of a
    list: the items of the response, each unmarshalled, in the order of
    the response, none left out; a response without [Items] is answered
    with the empty list, not with an error. *)
Theorem rows_are_answered_in_the_order_of_the_response
    (tool : string) (handler : jsval -> Srv jsval) (args : jsval)
    (command : Command) (resp : jsval) :
  In (tool, handler) [("query-table", query_table d);
                      ("scan-table", scan_table d)] ->
  snd (handler args) = [command] ->
  dynamo_send d command = inr resp ->
  nullish resp = false ->
  (truthy (prop resp "Items") = false ->
   fst (handler args) = inr (text_content (Some "[]")))
  /\ (forall items rows,
        prop resp "Items" = VArr items ->
        Forall2 (fun item row => unmarshall d item = inr row) items rows ->
        List.length rows = List.length items
        /\ fst (handler args) = inr (text_content (JSON_stringify (VArr rows)))).
Proof.
  intros Hin Hsent Hsend Hresp.
  destruct (unmarshall_items_rows (prop resp "Items")) as (Hnone & Hrows).
  assert (Hrun :
            fst (handler args)
            = fst (sbind (sget resp "Items") (fun items =>
                   sbind (unmarshall_items d items) (fun rows =>
                   sret (text_content (JSON_stringify rows)))))).
  { cbn [In] in Hin. destruct Hin as [H|[H|[]]]; injection H as _ <-;
      revert Hsent.
    - unfold query_table.
      destruct (marshall d (prop args "expressionAttributeValues"))
        as [e|marshalled]; [discriminate|].
      rewrite sbind_slift. intros Hsent.
      exact (sent_one _ _ command resp rendered_rows_silent Hsent Hsend).
    - unfold scan_table. intros Hsent.
      exact (sent_one _ _ command resp rendered_rows_silent Hsent Hsend). }
  rewrite Hrun, (sget_ok _ _ _ Hresp). split.
  - intros Hfalsy. rewrite (Hnone Hfalsy). reflexivity.
  - intros items rows Hitems Hall.
    split; [symmetry; apply (Forall2_length Hall)|].
    rewrite (Hrows _ _ Hitems Hall). reflexivity.
Qed.

(** X16.  [get-item] for a key that is not in the table (the response
    has no [Item]) answers with the text [null]: the lookup is not an
    error, and nothing is unmarshalled. *)
Theorem missing_item_is_answered_with_null
    (args marshalled resp : jsval) :
  marshall d (prop args "key") = inr marshalled ->
  dynamo_send d (GetItemCommand (VObj [("TableName", prop args "tableName");
                                       ("Key", marshalled)]))
  = inr resp ->
  nullish resp = false ->
  truthy (prop resp "Item") = false ->
  get_item d args
  = (inr (text_content (Some "null")),
     [GetItemCommand (VObj [("TableName", prop args "tableName");
                            ("Key", marshalled)])]).
Proof.
  intros Hkey Hsend Hresp Hitem.
  unfold get_item, sbind at 1, slift. rewrite Hkey.
  unfold sbind at 1, ssend. rewrite Hsend.
  unfold sbind at 1, sget. rewrite Hresp. unfold sret at 1.
  unfold sbind. rewrite Hitem. reflexivity.
Qed.

(** X17.  [scan-table] reads the table name and nothing else of its
    arguments: the one command it sends holds [TableName] only.  A filter
    expression, attribute names and values or a limit, such as the
    client's fallback passes on, change neither the command nor the
    answer: the scan is of the whole table. *)
Theorem scan_table_reads_the_table_name_only (args args' : jsval) :
  prop args "tableName" = prop args' "tableName" ->
  scan_table d args = scan_table d args'
  /\ snd (scan_table d args)
     = [ScanCommand (VObj [("TableName", prop args' "tableName")])].
Proof.
  intros Hname. unfold scan_table. rewrite Hname. split; [reflexivity|].
  unfold sbind at 1, ssend.
  destruct (dynamo_send d _) as [e|resp]; [reflexivity|].
  destruct (rendered_rows resp) as (r & -> & _). reflexivity.
Qed.

End Handlers.

(* ================================================================== *)
(** ** The further properties on the stubbed backends *)
(* ================================================================== *)

Lemma text_reply_is_returned_as_it_is_witness :
  processQuery Stub.plain_text_env Stub.client "hi" []
  = (inr (Array_join nl
            (map (fun c => prop c "text")
                 [Stub.text_block "Hello."; Stub.text_block "How can I help?"])),
     ([] ++ [EvSend (commandParams Stub.client [user_text_msg "hi"])])%list).
Proof.
  apply (text_reply_is_returned_as_it_is Stub.plain_text_env Stub.client "hi" []
           (VObj [("role", VStr "assistant");
                  ("content", VArr [Stub.text_block "Hello.";
                                    Stub.text_block "How can I help?"])])).
  - reflexivity.
  - reflexivity.
  - repeat constructor.
Defined.

Lemma failed_tool_call_ends_the_turn_witness :
  processQuery Stub.failing_tool_env Stub.client "show the users" []
  = (inr ("Error: " ++ "MCP error -32602: Tool scan_table not found"),
     ([] ++ [EvSend (commandParams Stub.client [user_text_msg "show the users"]);
             EvCallTool (VStr "scan_table") (VObj [("tableName", VStr "Users")]);
             EvConsoleError
               [CVal (VStr "Error invoking Bedrock model:");
                CExn (JsError "MCP error -32602: Tool scan_table not found")]])%list).
Proof.
  apply (failed_tool_call_ends_the_turn Stub.failing_tool_env Stub.client
           "show the users" []
           (VObj [("role", VStr "assistant");
                  ("content", VArr Stub.scan_request)])
           [Stub.text_block "Let me look."]
           (Stub.tool_use_block "t1" "scan_table"
              (VObj [("tableName", VStr "Users")]))
           [Stub.text_block "Done."]
           (JsError "MCP error -32602: Tool scan_table not found")).
  - reflexivity.
  - reflexivity.
  - repeat constructor.
  - repeat split.
  - reflexivity.
Defined.

Lemma result_without_items_is_passed_on_as_it_is_witness :
  let st := {| messages := [user_text_msg "store 7"];
               finalText := []; toolResults := [] |} in
  let result :=
    VObj [("content", VArr [Stub.text_block "Item put in table Users"])] in
  snd (process_content Stub.confirmation_env Stub.client Stub.put_request st [])
  = ([] ++ [EvCallTool (VStr "put-item") (prop Stub.put_request "input");
            EvSend (followUpCommandParams Stub.client
                      (messages st
                       ++ [assistant_tool_use_msg (prop Stub.put_request "id")
                             (prop Stub.put_request "name")
                             (prop Stub.put_request "input");
                           tool_result_msg (prop Stub.put_request "id")
                             (content_text result)]))])%list.
Proof.
  apply (result_without_items_is_passed_on_as_it_is
           Stub.confirmation_env Stub.client Stub.put_request
           {| messages := [user_text_msg "store 7"];
              finalText := []; toolResults := [] |}
           []
           (VObj [("content", VArr [Stub.text_block "Item put in table Users"])])).
  - repeat split.
  - reflexivity.
  - reflexivity.
  - intros text parsed [= <-] Hparse. vm_compute in Hparse. discriminate.
Defined.

Lemma terminal_shows_what_the_model_is_told_witness :
  let block := Stub.tool_use_block "t1" "query_table" Stub.range_query in
  let st := {| messages := [user_text_msg "rows above 5?"];
               finalText := []; toolResults := [] |} in
  let result := VObj [("content", VArr [Stub.text_block Stub.items_payload])] in
  exists shown appended,
    snd (process_content (Stub.one_tool_env block) Stub.client block st [])
    = ([] ++ EvCallTool (VStr "scan_table") (scanArgs Stub.range_query)
             :: shown
                ++ [EvSend (followUpCommandParams Stub.client
                              (messages st
                               ++ [assistant_tool_use_msg (prop block "id")
                                     (prop block "name") (prop block "input");
                                   tool_result_msg (prop block "id")
                                     (content_text result ++ appended)]))])%list
    /\ (shown = []
        \/ exists rendering,
             shown = items_shown rendering
             /\ appended = nl ++ "Actual items:" ++ nl ++ rendering).
Proof.
  apply (terminal_shows_what_the_model_is_told
           (Stub.one_tool_env
              (Stub.tool_use_block "t1" "query_table" Stub.range_query))
           Stub.client
           (Stub.tool_use_block "t1" "query_table" Stub.range_query)
           {| messages := [user_text_msg "rows above 5?"];
              finalText := []; toolResults := [] |}
           []
           (VObj [("content", VArr [Stub.text_block Stub.items_payload])])).
  - repeat split.
  - reflexivity.
  - reflexivity.
Defined.

Lemma unsupported_script_is_never_started_witness :
  let failure :=
    EvConsoleLog [CVal (VStr "Failed to connect to MCP server: ");
                  CExn (JsError "Server script must be a .js or .py file")] in
  snd (main Stub.list_tables_env ["node"; "index.js"; "server.ts"]
         ["which tables?"; "quit"] [])
  = ([] ++ [profile_banner; failure; EvClose])%list
  /\ fst (main Stub.list_tables_env ["node"; "index.js"; "server.ts"]
            ["which tables?"; "quit"] [])
     = match mcp_close Stub.list_tables_env
               ([] ++ [profile_banner; failure])%list with
       | inr _ => Exited 0
       | inl e => Rejected e
       end.
Proof.
  apply (unsupported_script_is_never_started Stub.list_tables_env
           ["node"; "index.js"; "server.ts"] ["which tables?"; "quit"] []).
  - cbn. lia.
  - reflexivity.
  - reflexivity.
Defined.

Lemma catalogue_is_offered_as_listed_witness :
  exists this',
    connectToServer Stub.list_tables_env Stub.client "server.py" []
    = (inr this',
       ([] ++ [EvConnect (transport_for Stub.list_tables_env "server.py");
               EvListTools;
               EvConsoleLog
                 [CVal (VStr "Connected to server with tools:");
                  CVal (VArr (map (fun tool => prop tool "name")
                                  Stub.listing))]])%list)
    /\ transport this' = Some (transport_for Stub.list_tables_env "server.py")
    /\ tools this' = map listed_tool Stub.listing
    /\ toolsForBedrock this'
       = match Stub.listing with
         | [] => VObj []
         | _ =>
             VObj [("tools",
                    VArr (map (fun tool =>
                                 VObj [("name", prop tool "name");
                                       ("description",
                                        if truthy (prop tool "description")
                                        then prop tool "description"
                                        else VStr EmptyString);
                                       ("input_schema", prop tool "inputSchema")])
                              Stub.listing))]
         end.
Proof.
  apply (catalogue_is_offered_as_listed Stub.list_tables_env Stub.client
           "server.py" [] (VObj [("tools", VArr Stub.listing)]) Stub.listing).
  - reflexivity.
  - reflexivity.
  - reflexivity.
  - repeat constructor.
Defined.

Lemma every_tool_answers_with_one_text_block_witness :
  answers_with_one_text_block Stub.users_table
    (Server.get_item Stub.users_table
       (VObj [("tableName", VStr "Users"); ("key", VObj [("id", VInt 9)])])).
Proof.
  apply (every_tool_answers_with_one_text_block Stub.users_table "get-item").
  cbn. tauto.
Defined.

Lemma rows_are_answered_in_the_order_of_the_response_witness :
  let args := VObj [("tableName", VStr "Users")] in
  let resp := VObj [("Items", VArr [VObj [("id", VInt 5)];
                                    VObj [("id", VInt 7)]])] in
  (truthy (prop resp "Items") = false ->
   fst (Server.scan_table Stub.users_table args)
   = inr (Server.text_content (Some "[]")))
  /\ (forall items rows,
        prop resp "Items" = VArr items ->
        Forall2 (fun item row => Server.unmarshall Stub.users_table item = inr row)
                items rows ->
        List.length rows = List.length items
        /\ fst (Server.scan_table Stub.users_table args)
           = inr (Server.text_content (JSON_stringify (VArr rows)))).
Proof.
  apply (rows_are_answered_in_the_order_of_the_response Stub.users_table
           "scan-table" (Server.scan_table Stub.users_table)
           (VObj [("tableName", VStr "Users")])
           (Server.ScanCommand (VObj [("TableName", VStr "Users")]))).
  - right. left. reflexivity.
  - reflexivity.
  - reflexivity.
  - reflexivity.
Defined.

Lemma missing_item_is_answered_with_null_witness :
  let args := VObj [("tableName", VStr "Users");
                    ("key", VObj [("id", VInt 9)])] in
  Server.get_item Stub.users_table args
  = (inr (Server.text_content (Some "null")),
     [Server.GetItemCommand (VObj [("TableName", prop args "tableName");
                                   ("Key", VObj [("id", VInt 9)])])]).
Proof.
  apply (missing_item_is_answered_with_null Stub.users_table
           (VObj [("tableName", VStr "Users"); ("key", VObj [("id", VInt 9)])])
           (VObj [("id", VInt 9)]) (VObj [])).
  - reflexivity.
  - reflexivity.
  - reflexivity.
  - reflexivity.
Defined.

(** The arguments of the client's fallback against the bare table name. *)
Lemma scan_table_reads_the_table_name_only_witness :
  Server.scan_table Stub.users_table (scanArgs Stub.range_query)
  = Server.scan_table Stub.users_table (VObj [("tableName", VStr "Users")])
  /\ snd (Server.scan_table Stub.users_table (scanArgs Stub.range_query))
     = [Server.ScanCommand
          (VObj [("TableName",
                  prop (VObj [("tableName", VStr "Users")]) "tableName")])].
Proof.
  apply (scan_table_reads_the_table_name_only Stub.users_table
           (scanArgs Stub.range_query) (VObj [("tableName", VStr "Users")])).
  reflexivity.
Defined.
